(** * Shallow embedding of examples/named_entity_recognition/ner_wikigold_transformer.ipynb

    The notebook is a sequence of cells calling external libraries.  It is
    modelled as a program in a state and error monad over a [world] that
    holds the random-number states of Python's [random] module and of numpy,
    and the trace of every library call made so far with its outcome.

    - Python values are the inductive [value]; objects returned by library
      calls whose contents the notebook never inspects are kept symbolic:
      [VRes c] is "the object returned by the call [c]".
    - Library calls are the inductive [call].  Calls into external packages
      are answered by an environment [env] (which may raise any exception
      and decides the data returned by calls whose result the notebook
      inspects); [random.seed], [random.sample] and sklearn's
      [train_test_split] are modelled after their implementations over an
      abstract generator [algo].
    - Python floats are modelled as exact decimals ([Q]), plus infinities
      and NaN. *)

From Stdlib Require Import String Ascii List ZArith QArith Lia Bool.
From Stdlib Require Import Permutation Qround DecimalString.
Import ListNotations.
Open Scope nat_scope.
Open Scope string_scope.

(** ** Python values and library calls *)

Inductive pyfloat : Type :=
| PFin (q : Q)
| PInf (neg : bool)
| PNaN.

Inductive value : Type :=
| VNone
| VBool (b : bool)
| VInt (z : Z)
| VFloat (f : pyfloat)
| VStr (s : string)
| VList (vs : list value)                (* Python list or tuple *)
| VFormat (fmt : string) (args : list value)  (* fmt.format applied to args, not rendered *)
| VRes (c : call)                        (* opaque object returned by call c *)
with call : Type :=
| CImport (modname : string)
| CTemporaryDirectoryName                (* TemporaryDirectory().name *)
| CTorchManualSeed (seed : Z)
| CMaybeDownload (url fname : string) (work_directory : value)
| CReadConllFile (path sep : string)
| CRandomSeed (seed : Z)
| CRandomSample (population : value) (k : Z)
| CTrainTestSplit (xs ys : value) (test_size : pyfloat) (random_state : option Z)
| CDataFrame (columns : list (string * value))
| CHead (df : value) (n : Z)
| CDisplay (v : value)                   (* Jupyter display of a cell's value *)
| CTokenClassificationProcessor (model_name : string) (to_lower : bool)
    (cache_dir : value)
| CCreateLabelMap (label_lists : value) (trailing_piece_tag : string)
| CPreprocess (processor text : value) (max_len : Z) (labels label_map : value)
    (trailing_piece_tag : string)
| CDataloaderFromDataset (dataset : value) (batch_size : Z) (num_gpus : value)
    (shuffle distributed : bool)
| CTokenClassifier (model_name : string) (num_labels : Z) (cache_dir : value)
| CTimer
| CTimerEnter (t : value)
| CTimerExit (t : value)
| CTimerInterval (t : value)
| CFit (model train_dataloader : value) (num_epochs : Z) (num_gpus : value)
    (local_rank : Z) (weight_decay learning_rate adam_epsilon : pyfloat)
    (warmup_steps : Z) (verbose : bool) (seed : Z)
| CPredict (model test_dataloader num_gpus : value) (verbose : bool)
| CGetTrueTestLabels (model label_map dataset : value)
| CGetPredictedTokenLabels (model predictions label_map dataset : value)
| CClassificationReport (y_true y_pred : value) (digits : Z)
| CPrint (args : list value)
| CGetItem (obj : value) (index : Z)     (* obj[index] on a library object *)
| CGlue (name : string) (v : value).     (* scrapbook.glue *)

(** Python exceptions: class name and message. *)
Inductive exn : Type :=
| PyErr (cls msg : string).

Inductive result (A : Type) : Type :=
| Ok (a : A)
| Err (e : exn).
Arguments Ok {A} a.
Arguments Err {A} e.

Definition ValueError (msg : string) : exn := PyErr "ValueError" msg.
Definition IndexError (msg : string) : exn := PyErr "IndexError" msg.
Definition TypeError (msg : string) : exn := PyErr "TypeError" msg.

Definition rbind {A B} (r : result A) (f : A -> result B) : result B :=
  match r with Ok a => f a | Err e => Err e end.

Notation "x <-? r ;; k" := (rbind r (fun x => k))
  (at level 61, r at next level, right associativity).

(** ** Python builtins on strings *)

Module PyStr.

(** Characters of [str.isspace] among code points 0..255. *)
Definition is_space (c : ascii) : bool :=
  let n := nat_of_ascii c in
  (Nat.leb 9 n && Nat.leb n 13) || (Nat.leb 28 n && Nat.leb n 32)
  || Nat.eqb n 133 || Nat.eqb n 160.

(** [s.split(sep)] for a one-character separator: keeps empty pieces. *)
Fixpoint split_on (sep : ascii) (s : string) : list string :=
  match s with
  | EmptyString => [EmptyString]
  | String c rest =>
      if Ascii.eqb c sep then EmptyString :: split_on sep rest
      else match split_on sep rest with
           | p :: ps => String c p :: ps
           | [] => [String c EmptyString]
           end
  end.

(** [s.split()]: maximal runs of non-whitespace characters. *)
Fixpoint split_ws_aux (cur : string) (s : string) : list string :=
  match s with
  | EmptyString => match cur with EmptyString => [] | _ => [cur] end
  | String c rest =>
      if is_space c then
        match cur with
        | EmptyString => split_ws_aux EmptyString rest
        | _ => cur :: split_ws_aux EmptyString rest
        end
      else split_ws_aux (cur ++ String c EmptyString) rest
  end.

Definition split_ws (s : string) : list string := split_ws_aux EmptyString s.

Fixpoint strip_left (s : string) : string :=
  match s with
  | String c rest => if is_space c then strip_left rest else s
  | EmptyString => EmptyString
  end.

Definition strip (s : string) : string :=
  string_of_list_ascii (rev (list_ascii_of_string
    (strip_left (string_of_list_ascii (rev (list_ascii_of_string
      (strip_left s))))))).

Definition lower (c : ascii) : ascii :=
  let n := nat_of_ascii c in
  if Nat.leb 65 n && Nat.leb n 90 then ascii_of_nat (n + 32) else c.

Definition lower_str (s : string) : string :=
  string_of_list_ascii (map lower (list_ascii_of_string s)).

Definition digit_of (c : ascii) : option Z :=
  let n := nat_of_ascii c in
  if Nat.leb 48 n && Nat.leb n 57 then Some (Z.of_nat (n - 48)) else None.

(** digitpart ::= digit (["_"] digit)*; returns the digits and the rest. *)
Fixpoint digitpart_aux (acc : list Z) (l : list ascii) : list Z * list ascii :=
  match l with
  | c :: rest =>
      match digit_of c with
      | Some d => digitpart_aux (acc ++ [d])%list rest
      | None =>
          if Ascii.eqb c "_"%char then
            match rest with
            | c' :: rest' =>
                match digit_of c' with
                | Some d => match acc with
                            | [] => (acc, l)
                            | _ => digitpart_aux (acc ++ [d])%list rest'
                            end
                | None => (acc, l)
                end
            | [] => (acc, l)
            end
          else (acc, l)
      end
  | [] => (acc, l)
  end.

Definition digitpart (l : list ascii) : list Z * list ascii := digitpart_aux [] l.

Definition digits_value (ds : list Z) : Z := fold_left (fun a d => 10 * a + d)%Z ds 0%Z.

Definition sign_of (l : list ascii) : bool * list ascii :=
  match l with
  | "-"%char :: rest => (true, rest)
  | "+"%char :: rest => (false, rest)
  | _ => (false, l)
  end.

Definition pow10_Q (e : Z) : Q :=
  if (0 <=? e)%Z then inject_Z (10 ^ e) else 1 # Z.to_pos (10 ^ (- e)).

(** The decimal literal of [float(s)] (after the sign): digits, an
    optional fraction and an optional exponent. *)
Definition parse_decimal (l : list ascii) : option Q :=
  let (ip, r1) := digitpart l in
  let '(fp, r2, has_point) :=
    match r1 with
    | "."%char :: r => let (fp, r') := digitpart r in (fp, r', true)
    | _ => ([], r1, false)
    end in
  if (match ip, fp with [], [] => true | _, _ => false end) then None
  else
  let mant := digits_value (ip ++ fp) in
  let scale := (- Z.of_nat (length fp))%Z in
  match r2 with
  | [] => Some (inject_Z mant * pow10_Q scale)%Q
  | e :: r3 =>
      if Ascii.eqb e "e"%char || Ascii.eqb e "E"%char then
        let (eneg, r4) := sign_of r3 in
        let (ed, r5) := digitpart r4 in
        match ed, r5 with
        | _ :: _, [] =>
            let ev := digits_value ed in
            Some (inject_Z mant * pow10_Q (scale + (if eneg then - ev else ev)))%Q
        | _, _ => None
        end
      else None
  end.

(** [float(s)] for a string [s]: whether it parses is as in Python, but a
    decimal literal is read as its exact rational value, not rounded to
    the nearest double (nor to infinity when it is too large). *)
Definition py_float_of_string (s : string) : option pyfloat :=
  let (neg, body) := sign_of (list_ascii_of_string (strip s)) in
  let word := lower_str (string_of_list_ascii body) in
  if String.eqb word "nan" then Some PNaN
  else if String.eqb word "inf" || String.eqb word "infinity" then Some (PInf neg)
  else match parse_decimal body with
       | Some q => Some (PFin (if neg then - q else q)%Q)
       | None => None
       end.

End PyStr.

(** ** Python builtins on values *)

(** [float(v)].  The message quotes the string as its [repr] does when it
    holds no single quote. *)
Definition py_float (v : value) : result pyfloat :=
  match v with
  | VStr s =>
      match PyStr.py_float_of_string s with
      | Some f => Ok f
      | None => Err (ValueError ("could not convert string to float: '" ++ s ++ "'"))
      end
  | VInt z => Ok (PFin (inject_Z z))
  | VFloat f => Ok f
  | VBool b => Ok (PFin (if b then 1 else 0)%Q)
  | _ => Err (TypeError "float() argument must be a string or a real number")
  end.

(** Index normalisation of [seq[i]] on a sequence of length [n]. *)
Definition py_index (n : nat) (i : Z) : result nat :=
  if ((0 <=? i) && (i <? Z.of_nat n))%Z then Ok (Z.to_nat i)
  else if ((- Z.of_nat n <=? i) && (i <? 0))%Z then Ok (Z.to_nat (Z.of_nat n + i))
  else Err (IndexError "list index out of range").

Definition py_list_getitem {A} (d : A) (l : list A) (i : Z) : result A :=
  j <-? py_index (length l) i ;; Ok (nth j l d).

(** [iter(v)] for the values the notebook iterates over. *)
Definition py_iter (v : value) : result (list value) :=
  match v with
  | VList vs => Ok vs
  | VStr s => Ok (map (fun c => VStr (String c EmptyString)) (list_ascii_of_string s))
  | _ => Err (TypeError "object is not iterable")
  end.

(** [len(v)]. *)
Definition py_len (v : value) : result Z :=
  match v with
  | VList vs => Ok (Z.of_nat (length vs))
  | VStr s => Ok (Z.of_nat (String.length s))
  | _ => Err (TypeError "object has no len()")
  end.

(** [x * y] on the numbers the notebook multiplies. *)
Definition py_mul (x y : value) : result value :=
  match x, y with
  | VInt a, VInt b => Ok (VInt (a * b))
  | VFloat (PFin q), VInt b | VInt b, VFloat (PFin q) => Ok (VFloat (PFin (q * inject_Z b)))
  | _, _ => Err (TypeError "unsupported operand type(s) for *")
  end.

(** [int(x)]: truncation towards zero. *)
Definition py_int (x : value) : result Z :=
  match x with
  | VInt z => Ok z
  | VFloat (PFin q) =>
      Ok (if Qle_bool 0 q then Qfloor q else (- Qfloor (- q))%Z)
  | VFloat (PInf _) => Err (PyErr "OverflowError" "cannot convert float infinity to integer")
  | VFloat PNaN => Err (ValueError "cannot convert float NaN to integer")
  | _ => Err (TypeError "int() argument must be a string or a number")
  end.

(** [zip] applied to the unpacked [xss]: the i-th tuple collects the i-th elements; stops at the
    shortest argument; with no argument it is empty. *)
Fixpoint zip2 (xs ys : list value) : list value :=
  match xs, ys with
  | x :: xs', y :: ys' => VList [x; y] :: zip2 xs' ys'
  | _, _ => []
  end.

Fixpoint transpose_pairs (ps : list value) : result (list value * list value) :=
  match ps with
  | [] => Ok ([], [])
  | VList [a; b] :: ps' =>
      r <-? transpose_pairs ps' ;; Ok (a :: fst r, b :: snd r)
  | _ :: _ => Err (TypeError "zip: unexpected element")
  end.

(** [list(zip( *pairs))] where every element of [pairs] is a 2-tuple. *)
Definition unzip_list (pairs : list value) : result (list value) :=
  match pairs with
  | [] => Ok []
  | _ => r <-? transpose_pairs pairs ;; Ok [VList (fst r); VList (snd r)]
  end.

(** The decimal numeral of a natural number, as [str(n)]. *)
Definition string_of_nat (n : nat) : string :=
  DecimalString.NilZero.string_of_uint (Nat.to_uint n).

(** The [ValueError] of an unpacking into [k] names of [m] values, with
    CPython's messages (3.5 to 3.13). *)
Definition unpack_error (k m : nat) : exn :=
  if Nat.ltb m k then
    ValueError ("not enough values to unpack (expected " ++ string_of_nat k ++
                ", got " ++ string_of_nat m ++ ")")
  else ValueError ("too many values to unpack (expected " ++ string_of_nat k ++ ")").

(** [a, b = v]: unpacking into two names. *)
Definition unpack2 (v : value) : result (value * value) :=
  vs <-? py_iter v ;;
  match vs with
  | [a; b] => Ok (a, b)
  | _ => Err (unpack_error 2 (length vs))
  end.

(** [a, b, c, d = v]. *)
Definition unpack4 (v : value) : result (value * value * value * value) :=
  vs <-? py_iter v ;;
  match vs with
  | [a; b; c; d] => Ok (a, b, c, d)
  | _ => Err (unpack_error 4 (length vs))
  end.

(** [os.path.join(a, b)] for a relative [b]. *)
Definition path_join (a b : string) : string :=
  match a with
  | EmptyString => b
  | _ => if String.eqb (substring (String.length a - 1) 1 a) "/" then a ++ b
         else a ++ "/" ++ b
  end.

(** [s.split("/")[-1]]. *)
Definition last_component (s : string) : string :=
  last (PyStr.split_on "/"%char s) EmptyString.

Example split_ex :
  PyStr.split_on "010"%char ("a" ++ String "010"%char "b" ++ String "010"%char "")
  = ["a"; "b"; ""].
Proof. reflexivity. Qed.

Example split_ws_ex : PyStr.split_ws "  macro avg   0.85  0.80 " = ["macro"; "avg"; "0.85"; "0.80"].
Proof. reflexivity. Qed.

Example float_ex1 : PyStr.py_float_of_string "0.85" = Some (PFin (85 # 100)).
Proof. vm_compute. reflexivity. Qed.

Example float_ex2 : PyStr.py_float_of_string "1_0e-1" = Some (PFin (10 # 10)).
Proof. vm_compute. reflexivity. Qed.

Example float_ex3 : PyStr.py_float_of_string "-Inf" = Some (PInf true).
Proof. reflexivity. Qed.

Example float_ex4 : PyStr.py_float_of_string "avg" = None.
Proof. reflexivity. Qed.

Example float_ex5 : PyStr.py_float_of_string "1_" = None.
Proof. reflexivity. Qed.

Definition num_of (v : value) : option Q :=
  match v with
  | VInt z => Some (inject_Z z)
  | VFloat (PFin q) => Some q
  | _ => None
  end.

(** [x / y] on finite numbers. *)
Definition py_truediv (x y : value) : result value :=
  match num_of x, num_of y with
  | Some a, Some b =>
      if Qeq_bool b 0 then Err (PyErr "ZeroDivisionError" "division by zero")
      else Ok (VFloat (PFin (a / b)))
  | _, _ => Err (TypeError "unsupported operand type(s) for /")
  end.

Definition as_str (v : value) : result string :=
  match v with
  | VStr s => Ok s
  | _ => Err (TypeError "expected str")
  end.

(** ** The world, the trace and the monad *)

Abbreviation event := (call * result value)%type.

Record world : Type := mkWorld {
  py_rng : N;              (* state of Python's [random] module *)
  np_rng : N;              (* state of numpy's global generator *)
  trace : list event       (* library calls made so far, with their outcome *)
}.

Definition M (X : Type) : Type := world -> result X * world.

Definition ret {X} (x : X) : M X := fun w => (Ok x, w).
Definition raise {X} (e : exn) : M X := fun w => (Err e, w).
Definition liftR {X} (r : result X) : M X := fun w => (r, w).
Definition bind {X Y} (m : M X) (f : X -> M Y) : M Y :=
  fun w => match m w with
           | (Ok x, w') => f x w'
           | (Err e, w') => (Err e, w')
           end.

Notation "x <- m ;; k" := (bind m (fun x => k))
  (at level 61, m at next level, right associativity).
Notation "' p <- m ;; k" := (bind m (fun x => match x with p => k end))
  (at level 61, p pattern, m at next level, right associativity).
Notation "m ;;; k" := (bind m (fun _ => k)) (at level 61, right associativity).

Definition record (c : call) (r : result value) (w : world) : world :=
  {| py_rng := py_rng w; np_rng := np_rng w; trace := trace w ++ [(c, r)] |}.

(** The deterministic parts of the random-number generators.  [mt_sample r
    n k] are the positions [random.sample] picks from a population of size
    [n] in state [r]; [rs_permutation s n] is
    [np.random.RandomState(s).permutation(n)]; [np_permutation] is the same
    on numpy's global generator. *)
Record algo : Type := {
  mt_seed : Z -> N;
  mt_sample : N -> nat -> nat -> list nat * N;
  rs_permutation : Z -> nat -> list nat;
  np_permutation : N -> nat -> list nat * N
}.

(** The environment the notebook runs in: whether a library call raises,
    given the calls made so far, and the data returned by the calls whose
    result the notebook inspects. *)
Record env : Type := {
  env_raise : list event -> call -> option exn;
  env_data : list event -> call -> value
}.

(** Calls whose result the notebook reads as data. *)
Definition data_call (c : call) : bool :=
  match c with
  | CTemporaryDirectoryName | CReadConllFile _ _ | CCreateLabelMap _ _
  | CClassificationReport _ _ _ | CTimerInterval _ => true
  | _ => false
  end.

(** Calls that return [None]. *)
Definition none_call (c : call) : bool :=
  match c with
  | CPrint _ | CGlue _ _ | CFit _ _ _ _ _ _ _ _ _ _ _ | CDisplay _
  | CRandomSeed _ | CTimerExit _ => true
  | _ => false
  end.

Definition select (xs : list value) (idx : list nat) : value :=
  VList (map (fun j => nth j xs VNone) idx).

Section Semantics.

Variable A : algo.
Variable E : env.

(** [random.sample(population, k)]. *)
Definition random_sample (pop : value) (k : Z) (r : N) : result value * N :=
  match py_iter pop with
  | Err e => (Err e, r)
  | Ok xs =>
      if ((k <? 0) || (Z.of_nat (length xs) <? k))%Z then
        (Err (ValueError "Sample larger than population or is negative"), r)
      else let (idx, r') := mt_sample A r (length xs) (Z.to_nat k) in
           (Ok (select xs idx), r')
  end.

(** [ceil(test_size * n_samples)]. *)
Definition tts_n_test (q : Q) (n : nat) : nat := Z.to_nat (Qceiling (q * inject_Z (Z.of_nat n))).

(** sklearn's [train_test_split(xs, ys, test_size=..., random_state=...)]
    with a float [test_size] and no [train_size]: [ShuffleSplit] takes the
    first [ceil(test_size * n)] positions of a permutation for the test
    set and the next [n - n_test] for the training set.  The checks are
    those of sklearn 0.22 and later (older versions do not refuse an empty
    training set); each [ValueError] keeps only the fixed part of sklearn's
    message, which also formats in the sample counts and sizes. *)
Definition train_test_split (xv yv : value) (test_size : pyfloat)
    (random_state : option Z) (r : N) : result value * N :=
  match py_iter xv, py_iter yv with
  | Err e, _ | _, Err e => (Err e, r)
  | Ok xs, Ok ys =>
      if negb (Nat.eqb (length xs) (length ys)) then
        (Err (ValueError "Found input variables with inconsistent numbers of samples"), r)
      else
      match test_size with
      | PFin q =>
          if Qle_bool q 0 || Qle_bool 1 q then
            (Err (ValueError "test_size should be between 0 and 1"), r)
          else
          let n := length xs in
          let n_test := tts_n_test q n in
          let n_train := n - n_test in
          if Nat.eqb n_train 0 then
            (Err (ValueError "the resulting train set will be empty"), r)
          else
          let '(perm, r') :=
            match random_state with
            | Some s => (rs_permutation A s n, r)
            | None => np_permutation A r n
            end in
          let test := firstn n_test perm in
          let train := firstn n_train (skipn n_test perm) in
          (Ok (VList [select xs train; select xs test; select ys train; select ys test]), r')
      | _ => (Err (ValueError "test_size should be between 0 and 1"), r)
      end
  end.

(** The result of a call into an external package that does not raise. *)
Definition lib_result (h : list event) (c : call) : value :=
  if data_call c then env_data E h c
  else if none_call c then VNone
  else VRes c.

(** Executing one call and recording it in the trace. *)
Definition invoke (c : call) : M value :=
  fun w =>
  match c with
  | CRandomSeed s =>
      let r := Ok VNone in
      (r, {| py_rng := mt_seed A s; np_rng := np_rng w; trace := trace w ++ [(c, r)] |})
  | CRandomSample pop k =>
      let (r, g) := random_sample pop k (py_rng w) in
      (r, {| py_rng := g; np_rng := np_rng w; trace := trace w ++ [(c, r)] |})
  | CTrainTestSplit xv yv ts rs =>
      let (r, g) := train_test_split xv yv ts rs (np_rng w) in
      (r, {| py_rng := py_rng w; np_rng := g; trace := trace w ++ [(c, r)] |})
  | CTimer | CTimerExit _ =>
      let r := Ok (lib_result (trace w) c) in (r, record c r w)
  | CTimerEnter t => let r := Ok t in (r, record c r w)
  | _ =>
      let r := match env_raise E (trace w) c with
               | Some e => Err e
               | None => Ok (lib_result (trace w) c)
               end in
      (r, record c r w)
  end.

(** [obj[i]]. *)
Definition getitem (v : value) (i : Z) : M value :=
  match v with
  | VList vs => liftR (py_list_getitem VNone vs i)
  | VRes _ => invoke (CGetItem v i)
  | _ => raise (TypeError "object is not subscriptable")
  end.

(** [with Timer() as t: body].  Modelled from the spec:
    utils_nlp.common.timer.Timer is not under src/; following the spec's
    "failures surface directly as whatever exception the underlying
    library raises", its constructor and [__enter__] do not raise,
    [__enter__] returns the timer itself, and [__exit__] does not raise and
    returns [None], so an exception of the body is re-raised after it. *)
Definition with_timer {X} (body : value -> M X) : M (value * X) :=
  t0 <- invoke CTimer ;;
  t <- invoke (CTimerEnter t0) ;;
  fun w =>
    let (r, w1) := body t w in
    let (rx, w2) := invoke (CTimerExit t) w1 in
    match rx, r with
    | Err e', _ => (Err e', w2)
    | Ok _, Ok x => (Ok (t, x), w2)
    | Ok _, Err e => (Err e, w2)
    end.

Fixpoint for_each {X} (l : list X) (body : X -> M unit) : M unit :=
  match l with
  | [] => ret tt
  | x :: l' => body x ;;; for_each l' body
  end.

(** ** The notebook's cells *)

(** Cell 3: the import statements, in order. *)
Definition imports : list string :=
  ["os"; "random"; "string"; "sys"; "tempfile"; "pandas"; "scrapbook"; "torch";
   "seqeval.metrics"; "sklearn.model_selection"; "utils_nlp.common.pytorch_utils";
   "utils_nlp.common.timer"; "utils_nlp.dataset"; "utils_nlp.dataset.ner_utils";
   "utils_nlp.dataset.url_utils"; "utils_nlp.models.transformers.named_entity_recognition"].

Definition cell_imports : M unit :=
  for_each imports (fun m => invoke (CImport m) ;;; ret tt).

(** The configuration variables of cells 6 and 7. *)
Record config : Type := mkConfig {
  QUICK_RUN : bool;
  DATA_URL : string;
  TEST_DATA_FRACTION : pyfloat;
  SAMPLE_RATIO : value;
  DATA_PATH : value;
  CACHE_DIR : value;
  RANDOM_SEED : Z;
  NUM_TRAIN_EPOCHS : Z;
  MODEL_NAME : string;
  DO_LOWER_CASE : bool;
  MAX_SEQ_LENGTH : Z;
  TRAILING_PIECE_TAG : string;
  NUM_GPUS : value;
  BATCH_SIZE : Z
}.

Definition wikigold_url : string :=
  "https://raw.githubusercontent.com/juand-r/entity-recognition-datasets"
  ++ "/master/data/wikigold/CONLL-format/data/wikigold.conll.txt".

(** [if QUICK_RUN: SAMPLE_RATIO = 0.1; NUM_TRAIN_EPOCHS = 1]. *)
Definition quick_run_update (cfg : config) : config :=
  if QUICK_RUN cfg then
    {| QUICK_RUN := QUICK_RUN cfg; DATA_URL := DATA_URL cfg;
       TEST_DATA_FRACTION := TEST_DATA_FRACTION cfg;
       SAMPLE_RATIO := VFloat (PFin (1 # 10));
       DATA_PATH := DATA_PATH cfg; CACHE_DIR := CACHE_DIR cfg;
       RANDOM_SEED := RANDOM_SEED cfg; NUM_TRAIN_EPOCHS := 1;
       MODEL_NAME := MODEL_NAME cfg; DO_LOWER_CASE := DO_LOWER_CASE cfg;
       MAX_SEQ_LENGTH := MAX_SEQ_LENGTH cfg;
       TRAILING_PIECE_TAG := TRAILING_PIECE_TAG cfg; NUM_GPUS := NUM_GPUS cfg;
       BATCH_SIZE := BATCH_SIZE cfg |}
  else cfg.

(** The assignments of cell 7 before the [if QUICK_RUN] update, with
    [QUICK_RUN] the value set in cell 6. *)
Definition base_config (quick : bool) (data_path cache_dir : value) : config :=
  {| QUICK_RUN := quick; DATA_URL := wikigold_url;
     TEST_DATA_FRACTION := PFin (3 # 10); SAMPLE_RATIO := VInt 1;
     DATA_PATH := data_path; CACHE_DIR := cache_dir; RANDOM_SEED := 100;
     NUM_TRAIN_EPOCHS := 5; MODEL_NAME := "bert-base-cased";
     DO_LOWER_CASE := false; MAX_SEQ_LENGTH := 200; TRAILING_PIECE_TAG := "X";
     NUM_GPUS := VNone; BATCH_SIZE := 16 |}.

(** Cells 6 and 7. *)
Definition cell_config (quick : bool) : M config :=
  data_path <- invoke CTemporaryDirectoryName ;;
  cache_dir <- invoke CTemporaryDirectoryName ;;
  invoke (CTorchManualSeed 100) ;;;
  ret (quick_run_update (base_config quick data_path cache_dir)).

(** Cell 9, download and parse. *)
Definition cell_download_parse (cfg : config) : M (value * value) :=
  let file_name := last_component (DATA_URL cfg) in
  invoke (CMaybeDownload (DATA_URL cfg) file_name (DATA_PATH cfg)) ;;;
  data_path <- liftR (as_str (DATA_PATH cfg)) ;;
  let data_file := path_join data_path file_name in
  parsed <- invoke (CReadConllFile data_file " ") ;;
  liftR (unpack2 parsed).

(** Cell 9, sub-sampling:
    [random.seed(RANDOM_SEED)];
    [sample_size = int(SAMPLE_RATIO * len(sentence_list))];
    [sentence_list, labels_list = list(zip( *random.sample(
       list(zip(sentence_list, labels_list)), k=sample_size)))]. *)
Definition cell_subsample (cfg : config) (sentence_list labels_list : value)
    : M (value * value) :=
  invoke (CRandomSeed (RANDOM_SEED cfg)) ;;;
  sample_size <- liftR (n <-? py_len sentence_list ;;
                        x <-? py_mul (SAMPLE_RATIO cfg) (VInt n) ;; py_int x) ;;
  pairs <- liftR (xs <-? py_iter sentence_list ;; ys <-? py_iter labels_list ;;
                  Ok (VList (zip2 xs ys))) ;;
  sampled <- invoke (CRandomSample pairs sample_size) ;;
  liftR (ps <-? py_iter sampled ;; u <-? unzip_list ps ;; unpack2 (VList u)).

Record split : Type := mkSplit {
  train_sentence_list : value;
  test_sentence_list : value;
  train_labels_list : value;
  test_labels_list : value
}.

(** Cell 9, train/test split. *)
Definition cell_split (cfg : config) (sentence_list labels_list : value) : M split :=
  r <- invoke (CTrainTestSplit sentence_list labels_list (TEST_DATA_FRACTION cfg)
                 (Some (RANDOM_SEED cfg))) ;;
  '(a, b, c, d) <- liftR (unpack4 r) ;;
  ret (mkSplit a b c d).

(** Cell 11: display of the first training sentence. *)
Definition cell_show_example (sp : split) : M unit :=
  tokens <- getitem (train_sentence_list sp) 0 ;;
  labels <- getitem (train_labels_list sp) 0 ;;
  df <- invoke (CDataFrame [("token", tokens); ("label", labels)]) ;;
  h <- invoke (CHead df 11) ;;
  invoke (CDisplay h) ;;; ret tt.

Record loaders : Type := mkLoaders {
  processor : value;
  label_map : value;
  train_dataset : value;
  train_dataloader : value;
  test_dataset : value;
  test_dataloader : value
}.

(** Cell 14: processor, label map, datasets and data loaders. *)
Definition cell_loaders (cfg : config) (labels_list : value) (sp : split) : M loaders :=
  proc <- invoke (CTokenClassificationProcessor (MODEL_NAME cfg) (DO_LOWER_CASE cfg)
                    (CACHE_DIR cfg)) ;;
  lm <- invoke (CCreateLabelMap labels_list (TRAILING_PIECE_TAG cfg)) ;;
  trd <- invoke (CPreprocess proc (train_sentence_list sp) (MAX_SEQ_LENGTH cfg)
                   (train_labels_list sp) lm (TRAILING_PIECE_TAG cfg)) ;;
  trl <- invoke (CDataloaderFromDataset trd (BATCH_SIZE cfg) (NUM_GPUS cfg) true false) ;;
  ted <- invoke (CPreprocess proc (test_sentence_list sp) (MAX_SEQ_LENGTH cfg)
                   (test_labels_list sp) lm (TRAILING_PIECE_TAG cfg)) ;;
  tel <- invoke (CDataloaderFromDataset ted (BATCH_SIZE cfg) (NUM_GPUS cfg) false false) ;;
  ret (mkLoaders proc lm trd trl ted tel).

Definition print_time (label : string) (t : value) : M unit :=
  iv <- invoke (CTimerInterval t) ;;
  hrs <- liftR (py_truediv iv (VInt 3600)) ;;
  invoke (CPrint [VFormat label [hrs]]) ;;; ret tt.

(** Cell 16: the model wrapper and its fine-tuning. *)
Definition cell_train (cfg : config) (ld : loaders) : M value :=
  num_labels <- liftR (py_len (label_map ld)) ;;
  model <- invoke (CTokenClassifier (MODEL_NAME cfg) num_labels (CACHE_DIR cfg)) ;;
  '(t, _) <- with_timer (fun _ =>
      invoke (CFit model (train_dataloader ld) (NUM_TRAIN_EPOCHS cfg) (NUM_GPUS cfg)
                (-1) (PFin 0) (PFin (5 # 100000)) (PFin (1 # 100000000)) 0 false
                (RANDOM_SEED cfg))) ;;
  print_time "Training time : {:.3f} hrs" t ;;;
  ret model.

(** Cell 18: scoring the test data loader. *)
Definition cell_predict (model : value) (ld : loaders) : M value :=
  '(t, preds) <- with_timer (fun _ =>
      invoke (CPredict model (test_dataloader ld) VNone true)) ;;
  print_time "Prediction time : {:.3f} hrs" t ;;;
  ret preds.

(** Cells 20 and 22: true and predicted labels, the report, printed. *)
Definition cell_report (model preds : value) (ld : loaders) : M value :=
  true_labels <- invoke (CGetTrueTestLabels model (label_map ld) (test_dataset ld)) ;;
  predicted_labels <- invoke (CGetPredictedTokenLabels model preds (label_map ld)
                                (test_dataset ld)) ;;
  report <- invoke (CClassificationReport true_labels predicted_labels 2) ;;
  invoke (CPrint [report]) ;;;
  ret report.

Definition sample_text : list string :=
  ["Is it true that Jane works at Microsoft?"; "Joe now lives in Copenhagen."].

Definition str_list (l : list string) : value := VList (map VStr l).

(** Cell 24: scoring two example sentences and printing their labels. *)
Definition cell_examples (cfg : config) (model : value) (ld : loaders) : M unit :=
  let sample_tokens := map (fun x => str_list (PyStr.split_ws x)) sample_text in
  sds <- invoke (CPreprocess (processor ld) (VList sample_tokens) (MAX_SEQ_LENGTH cfg)
                   VNone (label_map ld) (TRAILING_PIECE_TAG cfg)) ;;
  sdl <- invoke (CDataloaderFromDataset sds (BATCH_SIZE cfg) VNone false false) ;;
  preds <- invoke (CPredict model sdl VNone true) ;;
  predicted_labels <- invoke (CGetPredictedTokenLabels model preds (label_map ld) sds) ;;
  for_each (seq 0 (length sample_text)) (fun i =>
    text_i <- liftR (py_list_getitem "" sample_text (Z.of_nat i)) ;;
    invoke (CPrint [VStr (String "010"%char ""); VStr text_i]) ;;;
    tokens_i <- liftR (py_list_getitem VNone sample_tokens (Z.of_nat i)) ;;
    labels_i <- getitem predicted_labels (Z.of_nat i) ;;
    df <- invoke (CDataFrame [("tokens", tokens_i); ("labels", labels_i)]) ;;
    invoke (CPrint [df]) ;;; ret tt).

(** Cell 26: [report_splits = report.split('\n')[-2].split()] and the three
    [sb.glue] calls. *)
Definition report_splits (report : value) : result (list string) :=
  s <-? as_str report ;;
  line <-? py_list_getitem "" (PyStr.split_on "010"%char s) (-2) ;;
  Ok (PyStr.split_ws line).

Definition glue_field (splits : list string) (name : string) (i : Z) : M unit :=
  f <- liftR (x <-? py_list_getitem "" splits i ;; py_float (VStr x)) ;;
  invoke (CGlue name (VFloat f)) ;;; ret tt.

Definition cell_glue (report : value) : M unit :=
  splits <- liftR (report_splits report) ;;
  glue_field splits "precision" 2 ;;;
  glue_field splits "recall" 3 ;;;
  glue_field splits "f1" 4.

(** Cells 3 to 9: imports, configuration, download, parsing,
    sub-sampling and train/test split. *)
Definition data_preparation (quick : bool) : M (config * value * value * split) :=
  cell_imports ;;;
  cfg <- cell_config quick ;;
  '(sentence_list, labels_list) <- cell_download_parse cfg ;;
  '(sentence_list, labels_list) <- cell_subsample cfg sentence_list labels_list ;;
  sp <- cell_split cfg sentence_list labels_list ;;
  ret (cfg, sentence_list, labels_list, sp).

(** The notebook run top to bottom. *)
Definition notebook (quick : bool) : M unit :=
  '(cfg, sentence_list, labels_list, sp) <- data_preparation quick ;;
  cell_show_example sp ;;;
  ld <- cell_loaders cfg labels_list sp ;;
  model <- cell_train cfg ld ;;
  preds <- cell_predict model ld ;;
  report <- cell_report model preds ld ;;
  cell_examples cfg model ld ;;;
  cell_glue report.

End Semantics.

(** ** A concrete generator and environment, to run the model *)

Module Demo.

Definition rotate {X} (s : nat) (l : list X) : list X := skipn s l ++ firstn s l.

(** A stand-in generator: random.sample takes a prefix of a rotation of
    the positions, the seeded permutation is a rotation. *)
Definition algo0 : algo := {|
  mt_seed := fun s => Z.to_N s;
  mt_sample := fun r n k =>
    (firstn k (rotate (N.to_nat r mod (S n)) (seq 0 n)), (r * 1103515245 + 12345)%N);
  rs_permutation := fun s n => rotate (Z.to_nat s mod (S n)) (seq 0 n);
  np_permutation := fun r n => (rotate (N.to_nat r mod (S n)) (seq 0 n), N.succ r)
|}.

Definition sent (ws : list string) : value := str_list ws.

Definition conll_sentences : list value :=
  [sent ["Jane"; "works"]; sent ["Joe"; "lives"; "here"]; sent ["Microsoft"];
   sent ["In"; "Copenhagen"]; sent ["Bob"]; sent ["Paris"; "is"; "big"];
   sent ["Hello"]; sent ["Alice"; "Smith"]; sent ["Go"]; sent ["Berlin"]].

Definition conll_labels : list value :=
  [sent ["B-PER"; "O"]; sent ["B-PER"; "O"; "O"]; sent ["B-ORG"];
   sent ["O"; "B-LOC"]; sent ["B-PER"]; sent ["B-LOC"; "O"; "O"];
   sent ["O"]; sent ["B-PER"; "I-PER"]; sent ["O"]; sent ["B-LOC"]].

Definition nl : string := String "010"%char "".

Definition report0 : string :=
  "           precision    recall  f1-score   support" ++ nl ++ nl
  ++ "      PER       0.90      0.95      0.92       100" ++ nl ++ nl
  ++ "micro avg       0.85      0.80      0.82       300" ++ nl
  ++ "macro avg       0.86      0.81      0.83       300" ++ nl.

Definition env_with (raises : list event -> call -> option exn) (report : string) : env := {|
  env_raise := raises;
  env_data := fun h c =>
    match c with
    | CTemporaryDirectoryName => VStr "/tmp/tmpk3d9"
    | CReadConllFile _ _ => VList [VList conll_sentences; VList conll_labels]
    | CCreateLabelMap _ _ =>
        VList [VList [VStr "O"; VInt 0]; VList [VStr "B-PER"; VInt 1];
               VList [VStr "I-PER"; VInt 2]; VList [VStr "B-LOC"; VInt 3];
               VList [VStr "B-ORG"; VInt 4]; VList [VStr "X"; VInt 5]]
    | CClassificationReport _ _ _ => VStr report
    | CTimerInterval _ => VFloat (PFin 36)
    | _ => VNone
    end
|}.

Definition env0 : env := env_with (fun _ _ => None) report0.

Definition world0 : world := {| py_rng := 7; np_rng := 3; trace := [] |}.

End Demo.

(** ** Kinds of calls *)

Inductive kind : Type :=
| KImport | KTempDir | KTorchSeed | KDownload | KReadConll | KRandomSeed
| KRandomSample | KSplit | KDataFrame | KHead | KDisplay | KProcessor
| KLabelMap | KPreprocess | KDataloader | KTokenClassifier | KTimer
| KTimerEnter | KTimerExit | KTimerInterval | KFit | KPredict | KTrueLabels
| KPredictedLabels | KReport | KPrint | KGetItem | KGlue.

Definition kind_of (c : call) : kind :=
  match c with
  | CImport _ => KImport
  | CTemporaryDirectoryName => KTempDir
  | CTorchManualSeed _ => KTorchSeed
  | CMaybeDownload _ _ _ => KDownload
  | CReadConllFile _ _ => KReadConll
  | CRandomSeed _ => KRandomSeed
  | CRandomSample _ _ => KRandomSample
  | CTrainTestSplit _ _ _ _ => KSplit
  | CDataFrame _ => KDataFrame
  | CHead _ _ => KHead
  | CDisplay _ => KDisplay
  | CTokenClassificationProcessor _ _ _ => KProcessor
  | CCreateLabelMap _ _ => KLabelMap
  | CPreprocess _ _ _ _ _ _ => KPreprocess
  | CDataloaderFromDataset _ _ _ _ _ => KDataloader
  | CTokenClassifier _ _ _ => KTokenClassifier
  | CTimer => KTimer
  | CTimerEnter _ => KTimerEnter
  | CTimerExit _ => KTimerExit
  | CTimerInterval _ => KTimerInterval
  | CFit _ _ _ _ _ _ _ _ _ _ _ => KFit
  | CPredict _ _ _ _ => KPredict
  | CGetTrueTestLabels _ _ _ => KTrueLabels
  | CGetPredictedTokenLabels _ _ _ _ => KPredictedLabels
  | CClassificationReport _ _ _ => KReport
  | CPrint _ => KPrint
  | CGetItem _ _ => KGetItem
  | CGlue _ _ => KGlue
  end.

Definition kinds (tr : list event) : list kind := map (fun e => kind_of (fst e)) tr.

Definition kind_eqb (a b : kind) : bool :=
  match a, b with
  | KImport, KImport | KTempDir, KTempDir | KTorchSeed, KTorchSeed
  | KDownload, KDownload | KReadConll, KReadConll | KRandomSeed, KRandomSeed
  | KRandomSample, KRandomSample | KSplit, KSplit | KDataFrame, KDataFrame
  | KHead, KHead | KDisplay, KDisplay | KProcessor, KProcessor
  | KLabelMap, KLabelMap | KPreprocess, KPreprocess | KDataloader, KDataloader
  | KTokenClassifier, KTokenClassifier | KTimer, KTimer
  | KTimerEnter, KTimerEnter | KTimerExit, KTimerExit
  | KTimerInterval, KTimerInterval | KFit, KFit | KPredict, KPredict
  | KTrueLabels, KTrueLabels | KPredictedLabels, KPredictedLabels
  | KReport, KReport | KPrint, KPrint | KGetItem, KGetItem | KGlue, KGlue => true
  | _, _ => false
  end.

(** The library calls of a run that completes, cell by cell. *)
Definition K_imports : list kind := repeat KImport 16.
Definition K_config : list kind := [KTempDir; KTempDir; KTorchSeed].
Definition K_download_parse : list kind := [KDownload; KReadConll].
Definition K_subsample : list kind := [KRandomSeed; KRandomSample].
Definition K_split : list kind := [KSplit].
Definition K_show_example : list kind := [KDataFrame; KHead; KDisplay].
Definition K_loaders : list kind :=
  [KProcessor; KLabelMap; KPreprocess; KDataloader; KPreprocess; KDataloader].
Definition K_train : list kind :=
  [KTokenClassifier; KTimer; KTimerEnter; KFit; KTimerExit; KTimerInterval; KPrint].
Definition K_predict : list kind :=
  [KTimer; KTimerEnter; KPredict; KTimerExit; KTimerInterval; KPrint].
Definition K_report : list kind := [KTrueLabels; KPredictedLabels; KReport; KPrint].
Definition K_examples : list kind :=
  [KPreprocess; KDataloader; KPredict; KPredictedLabels;
   KPrint; KGetItem; KDataFrame; KPrint; KPrint; KGetItem; KDataFrame; KPrint].
Definition K_glue : list kind := [KGlue; KGlue; KGlue].

Definition K_notebook : list kind :=
  K_imports ++ K_config ++ K_download_parse ++ K_subsample ++ K_split
  ++ K_show_example ++ K_loaders ++ K_train ++ K_predict ++ K_report
  ++ K_examples ++ K_glue.

(** The pipeline of the spec, as kinds of calls: download, parse, split,
    dataset wrapping, data-loader wrapping, model, fit, predict, metrics. *)
Definition spec_pipeline : list kind :=
  [KDownload; KReadConll; KSplit; KPreprocess; KDataloader; KTokenClassifier;
   KFit; KPredict; KReport].

Fixpoint index_of (k : kind) (l : list kind) : option nat :=
  match l with
  | [] => None
  | k' :: l' => if kind_eqb k k' then Some 0
                else option_map S (index_of k l')
  end.

(** No call of a listed step comes after a call of a later listed step. *)
Definition respects_order (order ks : list kind) : Prop :=
  forall p q a b i j, p < q -> nth_error ks p = Some a -> nth_error ks q = Some b ->
    index_of a order = Some i -> index_of b order = Some j -> i <= j.

(** ** Running the model *)

Definition Invoked (A : algo) (E : env) (c : call) (w : world) (v : value) (w1 : world)
  : Prop := invoke A E c w = (Ok v, w1).

(** Calls answered by the environment. *)
Definition env_call (c : call) : bool :=
  match c with
  | CRandomSeed _ | CRandomSample _ _ | CTrainTestSplit _ _ _ _
  | CTimer | CTimerEnter _ | CTimerExit _ => false
  | _ => true
  end.

Open Scope list_scope.

(** The test and training positions chosen by [train_test_split] with
    [random_state=s] on [n] samples. *)
Definition tts_test (A : algo) (s : Z) (q : Q) (n : nat) : list nat :=
  firstn (tts_n_test q n) (rs_permutation A s n).

Definition tts_train (A : algo) (s : Z) (q : Q) (n : nat) : list nat :=
  firstn (n - tts_n_test q n) (skipn (tts_n_test q n) (rs_permutation A s n)).

(** ** Auxiliary definitions for the statements below *)

(** The kinds of [spec_pipeline], in the order the calls of a run make them. *)
Definition in_pipeline (k : kind) : bool :=
  match index_of k spec_pipeline with Some _ => true | None => false end.

(** The run of the notebook on the demo data, with [QUICK_RUN = False]. *)
Definition demo_run : result unit * world :=
  notebook Demo.algo0 Demo.env0 false Demo.world0.

(** The [__exit__] call of a [with Timer()] block, which returns [None]. *)
Definition timer_exit_event (ev : event) : Prop :=
  exists t, ev = (CTimerExit t, Ok VNone).

(** A computation in which a failing library call ends the computation
    with that call's exception: after the failing call, the only calls
    made are the [__exit__] of the enclosing [with] blocks. *)
Definition propagates {X} (m : M X) : Prop :=
  forall w r w1, m w = (r, w1) ->
  exists new, trace w1 = trace w ++ new /\
    forall pre c e post, new = pre ++ (c, Err e) :: post ->
      r = Err e /\ Forall timer_exit_event post.

(** The exception of an out-of-memory failure of the fine-tuning. *)
Definition oom_error : exn := PyErr "OutOfMemoryError" "CUDA out of memory".

(** The demo environment in which [model.fit] runs out of memory. *)
Definition demo_env_oom : env :=
  Demo.env_with (fun _ c => match c with
                            | CFit _ _ _ _ _ _ _ _ _ _ _ => Some oom_error
                            | _ => None
                            end) Demo.report0.

Definition demo_oom_run : result unit * world :=
  notebook Demo.algo0 demo_env_oom false Demo.world0.

Definition of_kind (k : kind) (ev : event) : bool := kind_eqb (kind_of (fst ev)) k.

(** The calls that wrap data: the data sets and the data loaders. *)
Definition wraps_data (ev : event) : bool := of_kind KPreprocess ev || of_kind KDataloader ev.

(** The data set and data loader of the two example sentences of cell 24. *)
Definition sample_dataset (proc lm : value) : value :=
  VRes (CPreprocess proc (VList (map (fun x => str_list (PyStr.split_ws x)) sample_text))
          200 VNone lm "X").

Definition sample_dataloader (proc lm : value) : value :=
  VRes (CDataloaderFromDataset (sample_dataset proc lm) 16 VNone false false).

(** The contract of [random.sample]'s choice of positions: [k] distinct
    positions of the population. *)
Definition sample_contract (A : algo) : Prop :=
  forall r n k, k <= n ->
    length (fst (mt_sample A r n k)) = k /\ NoDup (fst (mt_sample A r n k)) /\
    Forall (fun j => j < n) (fst (mt_sample A r n k)).

(** The configuration of a run with [QUICK_RUN = False] and the demo
    temporary directories. *)
Definition demo_config : config :=
  quick_run_update (base_config false (VStr "/tmp/tmpk3d9") (VStr "/tmp/tmpk3d9")).

(** A second environment for the demo: other temporary directory names,
    the same data file. *)
Definition demo_env_other_tmp : env := {|
  env_raise := env_raise Demo.env0;
  env_data := fun h c =>
    match c with
    | CTemporaryDirectoryName => VStr "/tmp/tmpz81q"
    | _ => env_data Demo.env0 h c
    end
|}.

Definition demo_world_other : world := {| py_rng := 42; np_rng := 11; trace := [] |}.

(** A data file of twenty sentences: the demo's ten, twice. *)
Definition demo_env_twenty : env := {|
  env_raise := env_raise Demo.env0;
  env_data := fun h c =>
    match c with
    | CReadConllFile _ _ =>
        VList [VList (Demo.conll_sentences ++ Demo.conll_sentences);
               VList (Demo.conll_labels ++ Demo.conll_labels)]
    | _ => env_data Demo.env0 h c
    end
|}.

(** The metrics the last cell glues, with the field of the report row
    each one is read from. *)
Definition metric_fields : list (string * Z) := [("precision", 2%Z); ("recall", 3%Z); ("f1", 4%Z)].

(** The leading metrics whose field exists and parses as a float: the
    ones glued before the first failing field. *)
Fixpoint leading_metrics (splits : list string) (fs : list (string * Z))
    : list (string * pyfloat) :=
  match fs with
  | [] => []
  | (name, i) :: fs' =>
      match py_list_getitem "" splits i with
      | Ok x =>
          match py_float (VStr x) with
          | Ok f => (name, f) :: leading_metrics splits fs'
          | Err _ => []
          end
      | Err _ => []
      end
  end.

Definition glue_event (m : string * pyfloat) : event := (CGlue (fst m) (VFloat (snd m)), Ok VNone).

(** A report whose macro-average row has a precision but no parsable
    recall. *)
Definition report_bad_recall : string :=
  "           precision    recall  f1-score   support" ++ Demo.nl ++ Demo.nl
  ++ "macro avg       0.86       n/a      0.83       300" ++ Demo.nl.

(** The newline character. *)
Definition nl_char : ascii := "010"%char.

(** [sep.join(pieces)] for a one-character separator. *)
Fixpoint join_on (sep : ascii) (pieces : list string) : string :=
  match pieces with
  | [] => EmptyString
  | [p] => p
  | p :: ps => p ++ String sep (join_on sep ps)
  end.

(** Whether a character occurs in a string. *)
Definition has_char (c : ascii) (s : string) : Prop := In c (list_ascii_of_string s).

(** The characters of a string that are not whitespace, in order. *)
Definition non_space (s : string) : string :=
  string_of_list_ascii (filter (fun c => negb (PyStr.is_space c)) (list_ascii_of_string s)).

(** The sample size of cell 9, [int(SAMPLE_RATIO * len(sentence_list))],
    for the two values of [QUICK_RUN]. *)
Definition sample_size_for (quick : bool) (n : nat) : Z :=
  if quick then (Z.of_nat n / 10)%Z else Z.of_nat n.


(** The character of a decimal digit. *)
Definition digit_char (d : nat) : ascii := ascii_of_nat (48 + d).

(** The decimal numeral of a list of digits. *)
Definition digits_str (ds : list nat) : string := string_of_list_ascii (map digit_char ds).

Section Runs.

Variable A : algo.
Variable E : env.

Lemma bind_ok {X Y} (m : M X) (f : X -> M Y) w y w2 :
  bind m f w = (Ok y, w2) -> exists x w1, m w = (Ok x, w1) /\ f x w1 = (Ok y, w2).
Proof.
  unfold bind. destruct (m w) as [[x|e] w1]; intros H; [eauto | discriminate].
Qed.

Lemma liftR_ok {X} (r : result X) w x w1 : liftR r w = (Ok x, w1) -> r = Ok x /\ w1 = w.
Proof. unfold liftR. intros H. injection H. auto. Qed.

Lemma ret_ok {X} (x : X) w y w1 : ret x w = (Ok y, w1) -> y = x /\ w1 = w.
Proof. unfold ret. intros H. injection H. auto. Qed.

Lemma raise_ok {X} e w (y : X) w1 : raise e w = (Ok y, w1) -> False.
Proof. unfold raise. discriminate. Qed.

Lemma invoke_trace c w r w1 :
  invoke A E c w = (r, w1) -> trace w1 = trace w ++ [(c, r)].
Proof.
  unfold invoke; destruct c; intros H;
  repeat match type of H with
         | context [match ?p with pair _ _ => _ end] => destruct p
         | context [match ?p with Some _ => _ | None => _ end] => destruct p
         end;
  injection H; intros; subst; reflexivity.
Qed.

Lemma invoke_env_ok c w v w1 :
  env_call c = true -> Invoked A E c w v w1 ->
  env_raise E (trace w) c = None /\ v = lib_result E (trace w) c /\ w1 = record c (Ok v) w.
Proof.
  unfold Invoked, invoke; destruct c; cbn; try discriminate; intros _;
  destruct (env_raise E (trace w) _); intros H; injection H; intros; subst; auto;
  discriminate.
Qed.

Definition timer_world (w : world) : world :=
  record (CTimerEnter (VRes CTimer)) (Ok (VRes CTimer)) (record CTimer (Ok (VRes CTimer)) w).

Lemma with_timer_ok {X} (body : value -> M X) w p w2 :
  with_timer A E body w = (Ok p, w2) ->
  exists x w1, p = (VRes CTimer, x) /\ body (VRes CTimer) (timer_world w) = (Ok x, w1)
    /\ w2 = record (CTimerExit (VRes CTimer)) (Ok VNone) w1.
Proof.
  unfold with_timer, bind, timer_world. cbn.
  destruct (body _ _) as [[x|e] w1] eqn:Hb; intros H; inversion H; subst; eauto.
Qed.

Lemma invoked_of c w v w1 : invoke A E c w = (Ok v, w1) -> Invoked A E c w v w1.
Proof. exact (fun H => H). Qed.

End Runs.

(** Inverting a run that returns normally. *)
Ltac run_inv :=
  repeat match goal with
  | H : bind _ _ _ = (Ok _, _) |- _ =>
      apply bind_ok in H; destruct H as (? & ? & ? & H); cbv beta in H
  | H : liftR _ _ = (Ok _, _) |- _ =>
      apply liftR_ok in H; destruct H as [? ?]; subst
  | H : ret _ _ = (Ok _, _) |- _ =>
      apply ret_ok in H; destruct H as [? ?]; subst
  | H : raise _ _ = (Ok _, _) |- _ => destruct (raise_ok _ _ _ _ H)
  | H : with_timer _ _ _ _ = (Ok _, _) |- _ =>
      apply with_timer_ok in H; destruct H as (? & ? & ? & ? & ?); subst
  | H : invoke _ _ _ _ = (Ok _, _) |- _ =>
      pose proof (invoke_trace _ _ _ _ _ _ H); apply invoked_of in H
  | H : (match ?x with pair _ _ => _ end) _ = (Ok _, _) |- _ => destruct x
  | H : rbind ?r _ = Ok _ |- _ =>
      destruct r eqn:?; cbn [rbind] in H; [| discriminate H]
  end.

Ltac trace_rw :=
  unfold timer_world, record in *; cbn [trace] in *;
  repeat match goal with H : trace ?a = _ |- context [trace ?a] => rewrite H end.

Ltac kinds_done :=
  trace_rw; eexists; split; [rewrite <- ?app_assoc; reflexivity | reflexivity].

Ltac env_inv :=
  repeat match goal with
  | H : Invoked _ _ ?c _ _ _ |- _ =>
      let Hr := fresh "Hr" in let Hv := fresh "Hv" in let Hw := fresh "Hw" in
      destruct (invoke_env_ok _ _ c _ _ _ eq_refl H) as (Hr & Hv & Hw); clear H;
      cbn [lib_result data_call none_call] in Hv; subst
  end.

Section CellKinds.

Variable A : algo.
Variable E : env.

Lemma cell_imports_kinds w u w1 :
  cell_imports A E w = (Ok u, w1) -> exists new, trace w1 = trace w ++ new /\ kinds new = K_imports.
Proof. unfold cell_imports, imports; cbn [for_each]; intros H; run_inv; kinds_done. Qed.

Lemma cell_config_kinds quick w cfg w1 :
  cell_config A E quick w = (Ok cfg, w1) -> exists new, trace w1 = trace w ++ new /\ kinds new = K_config.
Proof. unfold cell_config; intros H; run_inv; kinds_done. Qed.

Lemma cell_download_parse_kinds cfg w r w1 :
  cell_download_parse A E cfg w = (Ok r, w1) ->
  exists new, trace w1 = trace w ++ new /\ kinds new = K_download_parse.
Proof. unfold cell_download_parse; intros H; run_inv; kinds_done. Qed.

Lemma cell_subsample_kinds cfg s l w r w1 :
  cell_subsample A E cfg s l w = (Ok r, w1) ->
  exists new, trace w1 = trace w ++ new /\ kinds new = K_subsample.
Proof. unfold cell_subsample; intros H; run_inv; kinds_done. Qed.

Lemma cell_split_kinds cfg s l w r w1 :
  cell_split A E cfg s l w = (Ok r, w1) -> exists new, trace w1 = trace w ++ new /\ kinds new = K_split.
Proof. unfold cell_split; intros H; run_inv; kinds_done. Qed.

Lemma cell_show_example_kinds sp xs ys w u w1 :
  train_sentence_list sp = VList xs -> train_labels_list sp = VList ys ->
  cell_show_example A E sp w = (Ok u, w1) ->
  exists new, trace w1 = trace w ++ new /\ kinds new = K_show_example.
Proof.
  unfold cell_show_example, getitem; intros Hx Hy; rewrite Hx, Hy; intros H; run_inv;
  kinds_done.
Qed.

Lemma cell_loaders_kinds cfg l sp w r w1 :
  cell_loaders A E cfg l sp w = (Ok r, w1) -> exists new, trace w1 = trace w ++ new /\ kinds new = K_loaders.
Proof. unfold cell_loaders; intros H; run_inv; kinds_done. Qed.

Lemma cell_train_kinds cfg ld w r w1 :
  cell_train A E cfg ld w = (Ok r, w1) -> exists new, trace w1 = trace w ++ new /\ kinds new = K_train.
Proof. unfold cell_train, print_time; intros H; run_inv; kinds_done. Qed.

Lemma cell_predict_kinds m ld w r w1 :
  cell_predict A E m ld w = (Ok r, w1) -> exists new, trace w1 = trace w ++ new /\ kinds new = K_predict.
Proof. unfold cell_predict, print_time; intros H; run_inv; kinds_done. Qed.

Lemma cell_report_kinds m p ld w r w1 :
  cell_report A E m p ld w = (Ok r, w1) -> exists new, trace w1 = trace w ++ new /\ kinds new = K_report.
Proof. unfold cell_report; intros H; run_inv; kinds_done. Qed.

Lemma cell_examples_kinds cfg m ld w u w1 :
  cell_examples A E cfg m ld w = (Ok u, w1) ->
  exists new, trace w1 = trace w ++ new /\ kinds new = K_examples.
Proof.
  unfold cell_examples; cbn [for_each seq length sample_text]; intros H.
  run_inv; env_inv; unfold getitem in *; run_inv; kinds_done.
Qed.

Lemma cell_glue_kinds r w u w1 :
  cell_glue A E r w = (Ok u, w1) ->
  exists new, trace w1 = trace w ++ new /\ kinds new = K_glue.
Proof. unfold cell_glue, glue_field; intros H; run_inv; kinds_done. Qed.

End CellKinds.

Section CellValues.

Variable A : algo.
Variable E : env.

Lemma train_test_split_ok xv yv q s r v r' :
  train_test_split A xv yv (PFin q) (Some s) r = (Ok v, r') ->
  exists xs ys, py_iter xv = Ok xs /\ py_iter yv = Ok ys /\ length xs = length ys /\
    tts_n_test q (length xs) < length xs /\ r' = r /\
    v = VList [select xs (tts_train A s q (length xs)); select xs (tts_test A s q (length xs));
               select ys (tts_train A s q (length xs)); select ys (tts_test A s q (length xs))].
Proof.
  unfold train_test_split.
  destruct (py_iter xv) as [xs|e] eqn:Hx; destruct (py_iter yv) as [ys|e'] eqn:Hy;
    try discriminate.
  destruct (negb (Nat.eqb (length xs) (length ys))) eqn:Hl; [discriminate|].
  destruct (Qle_bool q 0 || Qle_bool 1 q); [discriminate|].
  destruct (Nat.eqb (length xs - tts_n_test q (length xs)) 0) eqn:Hn; [discriminate|].
  intros H; injection H; intros; subst.
  apply negb_false_iff, Nat.eqb_eq in Hl. apply Nat.eqb_neq in Hn.
  exists xs, ys. repeat split; auto; lia.
Qed.

Lemma cell_split_ok cfg sl ll w sp w1 q :
  TEST_DATA_FRACTION cfg = PFin q -> cell_split A E cfg sl ll w = (Ok sp, w1) ->
  exists xs ys, py_iter sl = Ok xs /\ py_iter ll = Ok ys /\ length xs = length ys /\
    tts_n_test q (length xs) < length xs /\
    let tr := tts_train A (RANDOM_SEED cfg) q (length xs) in
    let te := tts_test A (RANDOM_SEED cfg) q (length xs) in
    sp = mkSplit (select xs tr) (select xs te) (select ys tr) (select ys te) /\
    trace w1 = trace w ++ [(CTrainTestSplit sl ll (PFin q) (Some (RANDOM_SEED cfg)),
                           Ok (VList [select xs tr; select xs te; select ys tr; select ys te]))].
Proof.
  unfold cell_split; intros Hq; rewrite Hq; intros H; run_inv.
  match goal with Hi : Invoked _ _ _ _ _ _ |- _ => unfold Invoked, invoke in Hi;
    destruct (train_test_split _ _ _ _ _ _) as [rr g] eqn:Ht; injection Hi; intros; subst end.
  apply train_test_split_ok in Ht.
  destruct Ht as (xs & ys & Hx & Hy & Hl & Hn & _ & ->).
  match goal with Hu : unpack4 _ = Ok _ |- _ => cbn in Hu; injection Hu; intros; subst end.
  exists xs, ys; repeat split; auto; trace_rw; reflexivity.
Qed.

Lemma cell_config_ok quick w cfg w1 :
  cell_config A E quick w = (Ok cfg, w1) ->
  exists dp cd, cfg = quick_run_update (base_config quick dp cd).
Proof. unfold cell_config; intros H; run_inv; eauto. Qed.

Lemma quick_run_update_fields quick dp cd :
  let cfg := quick_run_update (base_config quick dp cd) in
  TEST_DATA_FRACTION cfg = PFin (3 # 10) /\ RANDOM_SEED cfg = 100%Z /\
  NUM_TRAIN_EPOCHS cfg = (if quick then 1 else 5)%Z /\
  SAMPLE_RATIO cfg = (if quick then VFloat (PFin (1 # 10)) else VInt 1) /\
  QUICK_RUN cfg = quick /\ MAX_SEQ_LENGTH cfg = 200%Z /\ TRAILING_PIECE_TAG cfg = "X" /\
  BATCH_SIZE cfg = 16%Z /\ NUM_GPUS cfg = VNone /\ MODEL_NAME cfg = "bert-base-cased".
Proof. destruct quick; cbn; repeat split. Qed.

Lemma data_preparation_kinds quick w r w1 :
  data_preparation A E quick w = (Ok r, w1) ->
  exists new, trace w1 = trace w ++ new /\
    kinds new = K_imports ++ K_config ++ K_download_parse ++ K_subsample ++ K_split.
Proof.
  unfold data_preparation; intros H; run_inv.
  repeat match goal with
  | Hc : cell_imports _ _ _ = _ |- _ => apply cell_imports_kinds in Hc
  | Hc : cell_config _ _ _ _ = _ |- _ => apply cell_config_kinds in Hc
  | Hc : cell_download_parse _ _ _ _ = _ |- _ => apply cell_download_parse_kinds in Hc
  | Hc : cell_subsample _ _ _ _ _ _ = _ |- _ => apply cell_subsample_kinds in Hc
  | Hc : cell_split _ _ _ _ _ _ = _ |- _ => apply cell_split_kinds in Hc
  end.
  repeat match goal with Hc : exists new, _ |- _ => destruct Hc as (? & ? & ?) end.
  trace_rw. eexists; split; [rewrite <- !app_assoc; reflexivity|].
  unfold kinds in *; rewrite !map_app; repeat f_equal; assumption.
Qed.

Lemma data_preparation_ok quick w r w1 :
  data_preparation A E quick w = (Ok r, w1) ->
  exists dp cd s l xs ys,
    let tr := tts_train A 100%Z (3 # 10) (length xs) in
    let te := tts_test A 100%Z (3 # 10) (length xs) in
    r = (quick_run_update (base_config quick dp cd), s, l,
         mkSplit (select xs tr) (select xs te) (select ys tr) (select ys te)) /\
    py_iter s = Ok xs /\ py_iter l = Ok ys /\ length xs = length ys /\
    tts_n_test (3 # 10) (length xs) < length xs /\
    exists w', trace w1 = trace w' ++
      [(CTrainTestSplit s l (PFin (3 # 10)) (Some 100%Z),
        Ok (VList [select xs tr; select xs te; select ys tr; select ys te]))].
Proof.
  unfold data_preparation; intros H; run_inv.
  match goal with Hc : cell_config _ _ _ _ = _ |- _ =>
    apply cell_config_ok in Hc; destruct Hc as (dp & cd & ->) end.
  destruct (quick_run_update_fields quick dp cd) as (Hq & Hs & _).
  match goal with Hc : cell_split _ _ _ _ _ _ = _ |- _ =>
    apply (cell_split_ok _ _ _ _ _ _ _ Hq) in Hc;
    destruct Hc as (xs & ys & Hx & Hy & Hl & Hn & Hsp & Ht) end.
  rewrite Hs in Hsp, Ht. subst.
  do 6 eexists. split; [reflexivity|]. repeat split; eauto.
Qed.

End CellValues.

Lemma kinds_app l1 l2 : kinds (l1 ++ l2) = kinds l1 ++ kinds l2.
Proof. apply map_app. Qed.

Section NotebookKinds.

Variable A : algo.
Variable E : env.

Lemma notebook_kinds quick w w1 :
  notebook A E quick w = (Ok tt, w1) ->
  exists new, trace w1 = trace w ++ new /\ kinds new = K_notebook.
Proof.
  unfold notebook; intros H; run_inv.
  match goal with Hd : data_preparation _ _ _ _ = _ |- _ =>
    pose proof (data_preparation_ok _ _ _ _ _ _ Hd) as Hok;
    apply data_preparation_kinds in Hd end.
  destruct Hok as (dp & cd & s0 & l0 & xs & ys & Heq & _).
  injection Heq; intros; subst.
  match goal with Hc : cell_show_example _ _ _ _ = _ |- _ =>
    eapply cell_show_example_kinds in Hc; [| reflexivity | reflexivity] end.
  repeat match goal with
  | Hc : cell_loaders _ _ _ _ _ _ = _ |- _ => apply cell_loaders_kinds in Hc
  | Hc : cell_train _ _ _ _ _ = _ |- _ => apply cell_train_kinds in Hc
  | Hc : cell_predict _ _ _ _ _ = _ |- _ => apply cell_predict_kinds in Hc
  | Hc : cell_report _ _ _ _ _ _ = _ |- _ => apply cell_report_kinds in Hc
  | Hc : cell_examples _ _ _ _ _ _ = _ |- _ => apply cell_examples_kinds in Hc
  | Hc : cell_glue _ _ _ _ = _ |- _ => apply cell_glue_kinds in Hc
  end.
  repeat match goal with Hc : exists new, _ |- _ => destruct Hc as (? & ? & ?) end.
  trace_rw. eexists; split; [rewrite <- !app_assoc; reflexivity|].
  rewrite !kinds_app.
  repeat match goal with Hk : kinds _ = _ |- _ => rewrite Hk; clear Hk end.
  unfold K_notebook; repeat rewrite <- app_assoc; reflexivity.
Qed.

End NotebookKinds.

(** ** Failures of library calls *)

Lemma app_cons_split {X} (l1 l2 pre post : list X) (a : X) :
  l1 ++ l2 = pre ++ a :: post ->
  (exists post1, l1 = pre ++ a :: post1 /\ post = post1 ++ l2) \/
  (exists pre2, l2 = pre2 ++ a :: post /\ pre = l1 ++ pre2).
Proof.
  intros H. apply app_eq_app in H. destruct H as (l & [[H1 H2] | [H1 H2]]).
  - destruct l as [|b l].
    + right. exists []. rewrite app_nil_r in H1. cbn in *. subst.
      rewrite app_nil_r. auto.
    + left. injection H2; intros; subst. eauto.
  - right. exists l. auto.
Qed.

Lemma propagates_ret {X} (x : X) : propagates (ret x).
Proof.
  intros w r w1 H; injection H; intros; subst. exists []. split.
  - rewrite app_nil_r; reflexivity.
  - intros pre c e post Hn. destruct pre; discriminate.
Qed.

Lemma propagates_liftR {X} (x : result X) : propagates (liftR x).
Proof.
  intros w r w1 H; injection H; intros; subst. exists []. split.
  - rewrite app_nil_r; reflexivity.
  - intros pre c e post Hn. destruct pre; discriminate.
Qed.

Lemma propagates_raise {X} e : propagates (X := X) (raise e).
Proof.
  intros w r w1 H; injection H; intros; subst. exists []. split.
  - rewrite app_nil_r; reflexivity.
  - intros pre c e' post Hn. destruct pre; discriminate.
Qed.

Lemma propagates_invoke A E c : propagates (invoke A E c).
Proof.
  intros w r w1 H. exists [(c, r)]. split; [exact (invoke_trace A E _ _ _ _ H)|].
  intros pre c' e post Hn. destruct pre as [|? [|]]; injection Hn; intros; subst;
    [split; [reflexivity | constructor] | discriminate..].
Qed.

Lemma propagates_bind {X Y} (m : M X) (f : X -> M Y) :
  propagates m -> (forall x, propagates (f x)) -> propagates (bind m f).
Proof.
  intros Hm Hf w r w2. unfold bind.
  destruct (m w) as [[x|e] w1] eqn:Hr; intros H.
  - destruct (Hm _ _ _ Hr) as (new1 & Ht1 & Hp1).
    destruct (Hf x _ _ _ H) as (new2 & Ht2 & Hp2).
    exists (new1 ++ new2). split; [rewrite Ht2, Ht1, app_assoc; reflexivity|].
    intros pre c e post Hn. apply app_cons_split in Hn.
    destruct Hn as [(post1 & H1 & _) | (pre2 & H2 & _)].
    + destruct (Hp1 _ _ _ _ H1) as [Hd _]. discriminate.
    + exact (Hp2 _ _ _ _ H2).
  - injection H; intros; subst.
    destruct (Hm _ _ _ Hr) as (new & Ht & Hp). exists new. split; [exact Ht|].
    intros pre c e' post Hn. destruct (Hp _ _ _ _ Hn) as [He Hfa].
    injection He; intros; subst. auto.
Qed.

Lemma propagates_with_timer {X} A E (body : value -> M X) :
  (forall t, propagates (body t)) -> propagates (with_timer A E body).
Proof.
  intros Hb. unfold with_timer.
  apply propagates_bind; [apply propagates_invoke | intros t0].
  apply propagates_bind; [apply propagates_invoke | intros t].
  intros w r w2.
  destruct (body t w) as [rb w1] eqn:Hr.
  destruct (Hb t _ _ _ Hr) as (new1 & Ht1 & Hp1).
  cbn. intros H.
  assert (Hx : trace w2 = trace w ++ new1 ++ [(CTimerExit t, Ok VNone)] /\
               (forall e, rb = Err e -> r = Err e) /\
               (forall x, rb = Ok x -> r = Ok (t, x))).
  { destruct rb; injection H; intros; subst; cbn; rewrite Ht1, app_assoc;
      repeat split; intros; congruence. }
  destruct Hx as (Ht2 & He & Hok).
  exists (new1 ++ [(CTimerExit t, Ok VNone)]). split; [exact Ht2|].
  intros pre c e post Hn. apply app_cons_split in Hn.
  destruct Hn as [(post1 & H1 & Hpost) | (pre2 & H2 & _)].
  - destruct (Hp1 _ _ _ _ H1) as [Hd Hf]. subst post. split; [auto|].
    apply Forall_app; split; [exact Hf|]. constructor; [eexists; reflexivity | constructor].
  - destruct pre2 as [|? [|]]; cbn in H2; discriminate.
Qed.

Lemma propagates_for_each {X} (l : list X) (body : X -> M unit) :
  (forall x, propagates (body x)) -> propagates (for_each l body).
Proof.
  intros Hb. induction l as [|x l IH]; cbn.
  - apply propagates_ret.
  - apply propagates_bind; [apply Hb | intros; exact IH].
Qed.

Lemma propagates_getitem A E v i : propagates (getitem A E v i).
Proof.
  unfold getitem. destruct v;
    first [apply propagates_liftR | apply propagates_invoke | apply propagates_raise].
Qed.

Ltac propagates_tac :=
  repeat match goal with
  | |- propagates (bind _ _) => apply propagates_bind; intros
  | |- propagates (ret _) => apply propagates_ret
  | |- propagates (liftR _) => apply propagates_liftR
  | |- propagates (raise _) => apply propagates_raise
  | |- propagates (invoke _ _ _) => apply propagates_invoke
  | |- propagates (getitem _ _ _ _) => apply propagates_getitem
  | |- propagates (with_timer _ _ _) => apply propagates_with_timer; intros
  | |- propagates (for_each _ _) => apply propagates_for_each; intros
  | |- propagates (match ?x with pair _ _ => _ end) => destruct x
  | |- propagates (print_time _ _ _ _) => unfold print_time
  end.

Lemma notebook_propagates A E quick : propagates (notebook A E quick).
Proof.
  unfold notebook, data_preparation, cell_imports, cell_config, cell_download_parse,
    cell_subsample, cell_split, cell_show_example, cell_loaders, cell_train,
    print_time, cell_predict, cell_report, cell_examples, cell_glue, glue_field.
  propagates_tac.
Qed.

(** ** C2: failures propagate *)

(** C2.  Whatever library call fails in a run of the notebook, with
    whatever exception, the run ends with that same exception, and the
    only library calls made after the failing one are the [__exit__]
    calls of the enclosing [with Timer()] blocks, each returning normally:
    the notebook handles no exception, repeats no call and continues with
    no further step. *)
Theorem notebook_failure_propagates A E quick w r w1 pre c e post :
  notebook A E quick w = (r, w1) ->
  trace w1 = trace w ++ pre ++ (c, Err e) :: post ->
  r = Err e /\ Forall timer_exit_event post.
Proof.
  intros H Ht. destruct (notebook_propagates A E quick w r w1 H) as (new & Ht' & Hp).
  rewrite Ht' in Ht. apply app_inv_head in Ht. exact (Hp _ _ _ _ Ht).
Qed.

Lemma notebook_failure_propagates_witness :
  fst demo_oom_run = Err oom_error /\
  Forall timer_exit_event (skipn 37 (trace (snd demo_oom_run))).
Proof.
  apply (notebook_failure_propagates Demo.algo0 demo_env_oom false Demo.world0
           (fst demo_oom_run) (snd demo_oom_run)
           (firstn 36 (trace (snd demo_oom_run)))
           (fst (nth 36 (trace (snd demo_oom_run)) (CTimer, Ok VNone)))
           oom_error (skipn 37 (trace (snd demo_oom_run)))).
  - vm_compute; reflexivity.
  - vm_compute; reflexivity.
Defined.


(** ** The cells of a run that completes *)

Lemma py_list_getitem_nonneg {X} (d : X) l i a :
  (0 <= i)%Z -> py_list_getitem d l i = Ok a -> nth_error l (Z.to_nat i) = Some a.
Proof.
  unfold py_list_getitem, py_index; intros Hi.
  destruct ((0 <=? i) && (i <? Z.of_nat (length l)))%Z eqn:Hb.
  - cbn. intros H; injection H; intros <-.
    apply andb_true_iff in Hb; destruct Hb as [_ Hb]; apply Z.ltb_lt in Hb.
    apply nth_error_nth'. lia.
  - destruct ((- Z.of_nat (length l) <=? i) && (i <? 0))%Z eqn:Hc; [|discriminate].
    apply andb_true_iff in Hc; destruct Hc as [_ Hc]; apply Z.ltb_lt in Hc. lia.
Qed.

Section NotebookRun.

Variable A : algo.
Variable E : env.

Lemma notebook_ok quick w w9 :
  notebook A E quick w = (Ok tt, w9) ->
  exists cfg sl ll sp ld model preds report w2 w3 w4 w5 w6 w7 w8,
    data_preparation A E quick w = (Ok (cfg, sl, ll, sp), w2) /\
    cell_show_example A E sp w2 = (Ok tt, w3) /\
    cell_loaders A E cfg ll sp w3 = (Ok ld, w4) /\
    cell_train A E cfg ld w4 = (Ok model, w5) /\
    cell_predict A E model ld w5 = (Ok preds, w6) /\
    cell_report A E model preds ld w6 = (Ok report, w7) /\
    cell_examples A E cfg model ld w7 = (Ok tt, w8) /\
    cell_glue A E report w8 = (Ok tt, w9).
Proof.
  unfold notebook; intros H; run_inv.
  repeat match goal with u : unit |- _ => destruct u end.
  do 15 eexists; repeat split; eassumption.
Qed.

Lemma cell_loaders_ok cfg ll sp w ld w1 :
  cell_loaders A E cfg ll sp w = (Ok ld, w1) ->
  exists proc lm,
    let trd := VRes (CPreprocess proc (train_sentence_list sp) (MAX_SEQ_LENGTH cfg)
                       (train_labels_list sp) lm (TRAILING_PIECE_TAG cfg)) in
    let ted := VRes (CPreprocess proc (test_sentence_list sp) (MAX_SEQ_LENGTH cfg)
                       (test_labels_list sp) lm (TRAILING_PIECE_TAG cfg)) in
    ld = mkLoaders proc lm trd
           (VRes (CDataloaderFromDataset trd (BATCH_SIZE cfg) (NUM_GPUS cfg) true false))
           ted
           (VRes (CDataloaderFromDataset ted (BATCH_SIZE cfg) (NUM_GPUS cfg) false false)).
Proof. unfold cell_loaders; intros H; run_inv; env_inv; eauto. Qed.

Lemma cell_train_ok cfg ld w model w1 :
  cell_train A E cfg ld w = (Ok model, w1) ->
  exists new1 new2, trace w1 = trace w ++ new1 ++
      (CFit model (train_dataloader ld) (NUM_TRAIN_EPOCHS cfg) (NUM_GPUS cfg) (-1) (PFin 0)
         (PFin (5 # 100000)) (PFin (1 # 100000000)) 0 false (RANDOM_SEED cfg), Ok VNone)
      :: new2 /\
    kinds new1 = [KTokenClassifier; KTimer; KTimerEnter] /\
    kinds new2 = [KTimerExit; KTimerInterval; KPrint].
Proof.
  unfold cell_train, print_time; intros H; run_inv; env_inv.
  trace_rw. eexists [_; _; _], [_; _; _].
  split; [rewrite <- ?app_assoc; reflexivity | split; reflexivity].
Qed.

Lemma cell_predict_ok model ld w preds w1 :
  cell_predict A E model ld w = (Ok preds, w1) ->
  preds = VRes (CPredict model (test_dataloader ld) VNone true) /\
  exists new1 new2, trace w1 = trace w ++ new1 ++
      (CPredict model (test_dataloader ld) VNone true, Ok preds) :: new2 /\
    kinds new1 = [KTimer; KTimerEnter] /\ kinds new2 = [KTimerExit; KTimerInterval; KPrint].
Proof.
  unfold cell_predict, print_time; intros H; run_inv; env_inv.
  split; [reflexivity|].
  trace_rw. eexists [_; _], [_; _; _].
  split; [rewrite <- ?app_assoc; reflexivity | split; reflexivity].
Qed.

Lemma cell_report_ok model preds ld w report w1 :
  cell_report A E model preds ld w = (Ok report, w1) ->
  let tl := VRes (CGetTrueTestLabels model (label_map ld) (test_dataset ld)) in
  let pl := VRes (CGetPredictedTokenLabels model preds (label_map ld) (test_dataset ld)) in
  exists new1, trace w1 = trace w ++ new1 ++
      [(CClassificationReport tl pl 2, Ok report); (CPrint [report], Ok VNone)] /\
    kinds new1 = [KTrueLabels; KPredictedLabels].
Proof.
  unfold cell_report; intros H; run_inv; env_inv.
  trace_rw. eexists [_; _]. split; [rewrite <- ?app_assoc; reflexivity | reflexivity].
Qed.

Lemma cell_glue_ok report w w1 :
  cell_glue A E report w = (Ok tt, w1) ->
  exists splits s2 s3 s4 p r f,
    report_splits report = Ok splits /\
    nth_error splits 2 = Some s2 /\ nth_error splits 3 = Some s3 /\
    nth_error splits 4 = Some s4 /\
    py_float (VStr s2) = Ok p /\ py_float (VStr s3) = Ok r /\ py_float (VStr s4) = Ok f /\
    trace w1 = trace w ++ [(CGlue "precision" (VFloat p), Ok VNone);
                           (CGlue "recall" (VFloat r), Ok VNone);
                           (CGlue "f1" (VFloat f), Ok VNone)].
Proof.
  unfold cell_glue, glue_field; intros H; run_inv; env_inv.
  repeat match goal with
  | Hg : py_list_getitem _ _ ?i = Ok _ |- _ =>
      apply (py_list_getitem_nonneg _ _ i) in Hg; [cbn in Hg | lia]
  end.
  trace_rw. do 7 eexists; repeat split; try eassumption.
  rewrite <- ?app_assoc. reflexivity.
Qed.
End NotebookRun.


Lemma filter_of_kind_nil k l :
  forallb (fun k' => negb (kind_eqb k' k)) (kinds l) = true -> filter (of_kind k) l = [].
Proof.
  induction l as [|ev l IH]; cbn; [reflexivity|].
  unfold of_kind. destruct (kind_eqb (kind_of (fst ev)) k); cbn; [discriminate|].
  exact IH.
Qed.

Section NotebookTrace.

Variable A : algo.
Variable E : env.

Lemma notebook_trace quick w w9 :
  notebook A E quick w = (Ok tt, w9) ->
  exists cfg sl ll sp ld model preds report w2 w3 w4 w5 w6 w7 w8
         n1 n2 n3 n4 n5 n6 n7 n8,
    data_preparation A E quick w = (Ok (cfg, sl, ll, sp), w2) /\
    cell_loaders A E cfg ll sp w3 = (Ok ld, w4) /\
    cell_train A E cfg ld w4 = (Ok model, w5) /\
    cell_predict A E model ld w5 = (Ok preds, w6) /\
    cell_report A E model preds ld w6 = (Ok report, w7) /\
    cell_examples A E cfg model ld w7 = (Ok tt, w8) /\
    cell_glue A E report w8 = (Ok tt, w9) /\
    trace w2 = trace w ++ n1 /\ trace w3 = trace w2 ++ n2 /\ trace w4 = trace w3 ++ n3 /\
    trace w5 = trace w4 ++ n4 /\ trace w6 = trace w5 ++ n5 /\ trace w7 = trace w6 ++ n6 /\
    trace w8 = trace w7 ++ n7 /\ trace w9 = trace w8 ++ n8 /\
    kinds n1 = K_imports ++ K_config ++ K_download_parse ++ K_subsample ++ K_split /\
    kinds n2 = K_show_example /\ kinds n3 = K_loaders /\ kinds n4 = K_train /\
    kinds n5 = K_predict /\ kinds n6 = K_report /\ kinds n7 = K_examples /\
    kinds n8 = K_glue.
Proof.
  intros H.
  destruct (notebook_ok A E quick w w9 H)
    as (cfg & sl & ll & sp & ld & model & preds & report & w2 & w3 & w4 & w5 & w6 & w7 & w8 &
        H1 & H2 & H3 & H4 & H5 & H6 & H7 & H8).
  destruct (data_preparation_ok A E _ _ _ _ H1) as (dp & cd & s0 & l0 & xs & ys & Heq & _).
  injection Heq; intros; subst.
  destruct (data_preparation_kinds A E _ _ _ _ H1) as (n1 & T1 & K1).
  eapply cell_show_example_kinds in H2; [|reflexivity|reflexivity].
  destruct H2 as (n2 & T2 & K2).
  destruct (cell_loaders_kinds A E _ _ _ _ _ _ H3) as (n3 & T3 & K3).
  destruct (cell_train_kinds A E _ _ _ _ _ H4) as (n4 & T4 & K4).
  destruct (cell_predict_kinds A E _ _ _ _ _ H5) as (n5 & T5 & K5).
  destruct (cell_report_kinds A E _ _ _ _ _ _ H6) as (n6 & T6 & K6).
  destruct (cell_examples_kinds A E _ _ _ _ _ _ H7) as (n7 & T7 & K7).
  destruct (cell_glue_kinds A E _ _ _ _ H8) as (n8 & T8 & K8).
  do 23 eexists. repeat (split; [eassumption|]). eassumption.
Qed.

End NotebookTrace.

(** Removing, from the filter of a trace made of the segments of a run,
    the segments that make no call of kind [k]. *)
Ltac filter_segments k :=
  rewrite ?filter_app;
  repeat match goal with
  | Hk : kinds ?n = _ |- context [filter (of_kind k) ?n] =>
      rewrite (filter_of_kind_nil k n) by (rewrite Hk; reflexivity)
  end;
  cbn [app].


Ltac filter_done k :=
  filter_segments k; cbn [filter of_kind kind_of kind_eqb fst app]; reflexivity.

(** The trace of a run made of its segments, in order. *)
Ltac trace_segments :=
  repeat match goal with
  | T : trace ?a = trace ?b ++ _ |- context [trace ?a] => rewrite T
  end;
  rewrite <- ?app_assoc; reflexivity.

(** ** C3: the metrics recorded *)

(** C3.  A run of the notebook that completes computes one classification
    report and glues exactly three metrics, "precision", "recall" and
    "f1", in this order; their values are the floats of the fields 2, 3
    and 4 of [report.split('\n')[-2].split()], the whitespace-separated
    fields of the second-to-last line of that report. *)
Theorem notebook_glues_report_fields A E quick w w1 :
  notebook A E quick w = (Ok tt, w1) ->
  exists new tl pl report splits s2 s3 s4 p r f,
    trace w1 = trace w ++ new /\
    filter (of_kind KReport) new = [(CClassificationReport tl pl 2, Ok report)] /\
    report_splits report = Ok splits /\
    nth_error splits 2 = Some s2 /\ nth_error splits 3 = Some s3 /\
    nth_error splits 4 = Some s4 /\
    py_float (VStr s2) = Ok p /\ py_float (VStr s3) = Ok r /\ py_float (VStr s4) = Ok f /\
    filter (of_kind KGlue) new =
      [(CGlue "precision" (VFloat p), Ok VNone); (CGlue "recall" (VFloat r), Ok VNone);
       (CGlue "f1" (VFloat f), Ok VNone)].
Proof.
  intros H.
  destruct (notebook_trace A E quick w w1 H)
    as (cfg & sl & ll & sp & ld & model & preds & report & w2 & w3 & w4 & w5 & w6 & w7 & w8 &
        n1 & n2 & n3 & n4 & n5 & n6 & n7 & n8 & _ & _ & _ & _ & H5 & _ & H7 &
        T1 & T2 & T3 & T4 & T5 & T6 & T7 & T8 & K1 & K2 & K3 & K4 & K5 & K6 & K7 & K8).
  destruct (cell_glue_ok A E _ _ _ H7)
    as (splits & s2 & s3 & s4 & p & r & f & Hs & E2 & E3 & E4 & F2 & F3 & F4 & Tg).
  destruct (cell_report_ok A E _ _ _ _ _ _ H5) as (r1 & Tr & Kr).
  rewrite T8 in Tg; apply app_inv_head in Tg; subst n8.
  rewrite T6 in Tr; apply app_inv_head in Tr; subst n6.
  exists (n1 ++ n2 ++ n3 ++ n4 ++ n5 ++ (r1 ++
            [(CClassificationReport
                (VRes (CGetTrueTestLabels model (label_map ld) (test_dataset ld)))
                (VRes (CGetPredictedTokenLabels model preds (label_map ld) (test_dataset ld)))
                2, Ok report); (CPrint [report], Ok VNone)]) ++ n7 ++
          [(CGlue "precision" (VFloat p), Ok VNone); (CGlue "recall" (VFloat r), Ok VNone);
           (CGlue "f1" (VFloat f), Ok VNone)]).
  do 10 eexists. split; [trace_segments|].
  split; [filter_done KReport|].
  repeat (split; [eassumption|]).
  filter_done KGlue.
Qed.

Lemma notebook_glues_report_fields_witness :
  exists w1, demo_run = (Ok tt, w1) /\
  exists new tl pl report splits s2 s3 s4 p r f,
    trace w1 = trace Demo.world0 ++ new /\
    filter (of_kind KReport) new = [(CClassificationReport tl pl 2, Ok report)] /\
    report_splits report = Ok splits /\
    nth_error splits 2 = Some s2 /\ nth_error splits 3 = Some s3 /\
    nth_error splits 4 = Some s4 /\
    py_float (VStr s2) = Ok p /\ py_float (VStr s3) = Ok r /\ py_float (VStr s4) = Ok f /\
    filter (of_kind KGlue) new =
      [(CGlue "precision" (VFloat p), Ok VNone); (CGlue "recall" (VFloat r), Ok VNone);
       (CGlue "f1" (VFloat f), Ok VNone)].
Proof.
  eexists; split; [vm_compute; reflexivity|].
  apply (notebook_glues_report_fields Demo.algo0 Demo.env0 false Demo.world0).
  vm_compute; reflexivity.
Defined.


(** ** C4: the fine-tuning *)

(** C4.  A run of the notebook that completes calls [model.fit] exactly
    once, with [num_epochs] 1 when [QUICK_RUN] is set and 5 otherwise, on
    all GPUs ([num_gpus=None]), with [local_rank=-1], [weight_decay=0.0],
    [learning_rate=5e-5], [adam_epsilon=1e-8], [warmup_steps=0],
    [verbose=False] and [seed=100]. *)
Theorem notebook_fits_once A E quick w w1 :
  notebook A E quick w = (Ok tt, w1) ->
  exists new model loader,
    trace w1 = trace w ++ new /\
    filter (of_kind KFit) new =
      [(CFit model loader (if quick then 1 else 5)%Z VNone (-1) (PFin 0)
          (PFin (5 # 100000)) (PFin (1 # 100000000)) 0 false 100%Z, Ok VNone)].
Proof.
  intros H.
  destruct (notebook_trace A E quick w w1 H)
    as (cfg & sl & ll & sp & ld & model & preds & report & w2 & w3 & w4 & w5 & w6 & w7 & w8 &
        n1 & n2 & n3 & n4 & n5 & n6 & n7 & n8 & H1 & _ & H3 & _ & _ & _ & _ &
        T1 & T2 & T3 & T4 & T5 & T6 & T7 & T8 & K1 & K2 & K3 & K4 & K5 & K6 & K7 & K8).
  destruct (data_preparation_ok A E _ _ _ _ H1) as (dp & cd & s0 & l0 & xs & ys & Heq & _).
  injection Heq; intros; subst cfg.
  destruct (quick_run_update_fields quick dp cd) as (_ & Hs & He & _ & _ & _ & _ & _ & Hg & _).
  destruct (cell_train_ok A E _ _ _ _ _ H3) as (f1 & f2 & Tf & Kf1 & Kf2).
  rewrite T4 in Tf; apply app_inv_head in Tf; subst n4.
  rewrite He, Hg, Hs in *.
  eexists (n1 ++ n2 ++ n3 ++ (f1 ++ _ :: f2) ++ n5 ++ n6 ++ n7 ++ n8), model,
    (train_dataloader ld).
  split; [trace_segments|].
  filter_segments KFit. cbn [filter of_kind kind_of kind_eqb fst app].
  filter_segments KFit. rewrite ?app_nil_r. reflexivity.
Qed.

Lemma notebook_fits_once_witness :
  exists w1, demo_run = (Ok tt, w1) /\
  exists new model loader,
    trace w1 = trace Demo.world0 ++ new /\
    filter (of_kind KFit) new =
      [(CFit model loader 5%Z VNone (-1) (PFin 0)
          (PFin (5 # 100000)) (PFin (1 # 100000000)) 0 false 100%Z, Ok VNone)].
Proof.
  eexists; split; [vm_compute; reflexivity|].
  apply (notebook_fits_once Demo.algo0 Demo.env0 false Demo.world0).
  vm_compute; reflexivity.
Defined.


Lemma kind_eqb_refl k : kind_eqb k k = true.
Proof. destruct k; reflexivity. Qed.

Lemma filter_of_kind_last k K l pre pre' ev :
  kinds l = K ++ [k] -> forallb (fun k' => negb (kind_eqb k' k)) K = true ->
  pre ++ l = pre' ++ [ev] -> filter (of_kind k) l = [ev].
Proof.
  destruct l as [|x l' _] using rev_ind.
  - intros Hk. destruct K; discriminate.
  - unfold kinds; rewrite map_app; cbn. intros Hk HK He.
    apply app_inj_tail in Hk. destruct Hk as [Hk Hx].
    rewrite app_assoc in He. apply app_inj_tail in He. destruct He as [_ ->].
    rewrite filter_app, filter_of_kind_nil by (unfold kinds; rewrite Hk; exact HK).
    cbn. unfold of_kind. rewrite Hx, kind_eqb_refl. reflexivity.
Qed.

Lemma tts_partition A s q n :
  Permutation (rs_permutation A s n) (seq 0 n) -> tts_n_test q n <= n ->
  tts_test A s q n ++ tts_train A s q n = rs_permutation A s n /\
  length (tts_test A s q n) = tts_n_test q n.
Proof.
  intros Hp Hk. pose proof (Permutation_length Hp) as Hl. rewrite length_seq in Hl.
  unfold tts_test, tts_train. split.
  - assert (Hs : firstn (n - tts_n_test q n) (skipn (tts_n_test q n) (rs_permutation A s n))
                 = skipn (tts_n_test q n) (rs_permutation A s n))
      by (apply firstn_all2; rewrite length_skipn; lia).
    rewrite Hs. apply firstn_skipn.
  - rewrite length_firstn. lia.
Qed.

Section Examples.

Variable A : algo.
Variable E : env.

Lemma cell_examples_ok cfg model ld w u w1 :
  cell_examples A E cfg model ld w = (Ok u, w1) ->
  let sample_tokens := map (fun x => str_list (PyStr.split_ws x)) sample_text in
  let sds := VRes (CPreprocess (processor ld) (VList sample_tokens) (MAX_SEQ_LENGTH cfg)
                     VNone (label_map ld) (TRAILING_PIECE_TAG cfg)) in
  let sdl := VRes (CDataloaderFromDataset sds (BATCH_SIZE cfg) VNone false false) in
  exists e1 e2, trace w1 = trace w ++ e1 ++
      (CPredict model sdl VNone true, Ok (VRes (CPredict model sdl VNone true))) :: e2 /\
    kinds e1 = [KPreprocess; KDataloader] /\
    kinds e2 = [KPredictedLabels; KPrint; KGetItem; KDataFrame; KPrint; KPrint; KGetItem;
                KDataFrame; KPrint].
Proof.
  unfold cell_examples; cbn [for_each seq length sample_text]; intros H.
  run_inv; env_inv; unfold getitem in *; run_inv; env_inv.
  trace_rw. eexists [_; _], [_; _; _; _; _; _; _; _; _].
  split; [rewrite <- ?app_assoc; reflexivity | split; reflexivity].
Qed.

End Examples.

(** ** C1: the order of the library calls *)

Lemma filter_wraps_nil l :
  forallb (fun k => negb (kind_eqb k KPreprocess || kind_eqb k KDataloader)) (kinds l) = true ->
  filter wraps_data l = [].
Proof.
  induction l as [|ev l IH]; cbn; [reflexivity|].
  unfold wraps_data, of_kind.
  destruct (kind_eqb (kind_of (fst ev)) KPreprocess || kind_eqb (kind_of (fst ev)) KDataloader);
    cbn; [discriminate|exact IH].
Qed.

Section Wraps.
Variable A : algo.
Variable E : env.

Lemma cell_loaders_events cfg ll sp w ld w1 :
  cell_loaders A E cfg ll sp w = (Ok ld, w1) ->
  let trd := CPreprocess (processor ld) (train_sentence_list sp) (MAX_SEQ_LENGTH cfg)
               (train_labels_list sp) (label_map ld) (TRAILING_PIECE_TAG cfg) in
  let trl := CDataloaderFromDataset (VRes trd) (BATCH_SIZE cfg) (NUM_GPUS cfg) true false in
  let ted := CPreprocess (processor ld) (test_sentence_list sp) (MAX_SEQ_LENGTH cfg)
               (test_labels_list sp) (label_map ld) (TRAILING_PIECE_TAG cfg) in
  let tel := CDataloaderFromDataset (VRes ted) (BATCH_SIZE cfg) (NUM_GPUS cfg) false false in
  exists pre, trace w1 = trace w ++ pre ++
      [(trd, Ok (VRes trd)); (trl, Ok (VRes trl)); (ted, Ok (VRes ted)); (tel, Ok (VRes tel))] /\
    kinds pre = [KProcessor; KLabelMap].
Proof.
  unfold cell_loaders; intros H; run_inv; env_inv; trace_rw; cbn [processor label_map].
  eexists [_; _]. split; [rewrite <- ?app_assoc; reflexivity | reflexivity].
Qed.

Lemma cell_examples_events cfg model ld w u w1 :
  cell_examples A E cfg model ld w = (Ok u, w1) ->
  let sds := CPreprocess (processor ld)
               (VList (map (fun x => str_list (PyStr.split_ws x)) sample_text))
               (MAX_SEQ_LENGTH cfg) VNone (label_map ld) (TRAILING_PIECE_TAG cfg) in
  let sdl := CDataloaderFromDataset (VRes sds) (BATCH_SIZE cfg) VNone false false in
  exists e, trace w1 = trace w ++ [(sds, Ok (VRes sds)); (sdl, Ok (VRes sdl))] ++ e /\
    kinds e = [KPredict; KPredictedLabels; KPrint; KGetItem; KDataFrame; KPrint; KPrint;
               KGetItem; KDataFrame; KPrint].
Proof.
  unfold cell_examples; cbn [for_each seq length sample_text]; intros H.
  run_inv; env_inv; unfold getitem in *; run_inv; env_inv.
  trace_rw. eexists [_; _; _; _; _; _; _; _; _; _].
  split; [rewrite <- ?app_assoc; reflexivity | reflexivity].
Qed.

End Wraps.

Ltac wraps_segments :=
  rewrite ?filter_app;
  repeat match goal with
  | Hk : kinds ?n = _ |- context [filter wraps_data ?n] =>
      rewrite (filter_wraps_nil n) by (rewrite Hk; reflexivity)
  end;
  cbn [filter wraps_data of_kind kind_of kind_eqb fst app orb map].

(** C1 (counterexample).  A run that completes in which a listed step
    comes before a step listed earlier: the training data loader is
    created (position 30 of the trace) before the test data set is
    wrapped (position 31). *)
Lemma notebook_wraps_loader_before_test_dataset :
  exists w1, demo_run = (Ok tt, w1) /\ ~ respects_order spec_pipeline (kinds (trace w1)).
Proof.
  eexists; split; [vm_compute; reflexivity|].
  intros Hord.
  specialize (Hord 30 31 KDataloader KPreprocess 4 3).
  assert (4 <= 3) by (apply Hord; vm_compute; reflexivity). lia.
Qed.

(** C1 (amended).  A run of the notebook that completes makes its library
    calls in exactly the order [K_notebook]: the 16 imports, the
    configuration, download, parsing, sub-sampling, train/test split, the
    display of an example, the processor and label map, the training data
    set and loader, then the test data set and loader, the model, its fit,
    predict, the metrics, and the example predictions, then the three
    metrics glued.  Restricted to the steps of the spec's pipeline, the
    calls are download, parse, split, the training set and loader, the
    test set and loader, the model, fit, predict, the report, and the
    example sentences' data set, loader and prediction.  The six calls
    that wrap data are, in order: the data set of the split's training
    sentences and labels (its first and third results) and its loader,
    the data set of the test sentences and labels (second and fourth) and
    its loader, and the data set of the two sample sentences and its
    loader. *)
Theorem notebook_call_sequence A E quick w w1 :
  notebook A E quick w = (Ok tt, w1) ->
  exists new, trace w1 = trace w ++ new /\ kinds new = K_notebook /\
    filter in_pipeline (kinds new) =
      [KDownload; KReadConll; KSplit; KPreprocess; KDataloader; KPreprocess;
       KDataloader; KTokenClassifier; KFit; KPredict; KReport; KPreprocess;
       KDataloader; KPredict] /\
    exists sl ll trs tes trl tel proc lm,
      filter (of_kind KSplit) new =
        [(CTrainTestSplit sl ll (PFin (3 # 10)) (Some 100%Z),
          Ok (VList [trs; tes; trl; tel]))] /\
      let trd := CPreprocess proc trs 200 trl lm "X" in
      let ted := CPreprocess proc tes 200 tel lm "X" in
      let sds := CPreprocess proc (VList (map (fun x => str_list (PyStr.split_ws x)) sample_text))
                   200 VNone lm "X" in
      map fst (filter wraps_data new) =
        [trd; CDataloaderFromDataset (VRes trd) 16 VNone true false;
         ted; CDataloaderFromDataset (VRes ted) 16 VNone false false;
         sds; CDataloaderFromDataset (VRes sds) 16 VNone false false].
Proof.
  intros H.
  destruct (notebook_kinds A E quick w w1 H) as (new & Ht & Hk).
  destruct (notebook_trace A E quick w w1 H)
    as (cfg & sl & ll & sp & ld & model & preds & report & w2 & w3 & w4 & w5 & w6 & w7 & w8 &
        n1 & n2 & n3 & n4 & n5 & n6 & n7 & n8 & D & L & _ & _ & _ & X & _ &
        T1 & T2 & T3 & T4 & T5 & T6 & T7 & T8 & K1 & K2 & K3 & K4 & K5 & K6 & K7 & K8).
  assert (Hnew : new = n1 ++ n2 ++ n3 ++ n4 ++ n5 ++ n6 ++ n7 ++ n8).
  { apply (app_inv_head (trace w)). rewrite <- Ht. trace_segments. }
  exists new. split; [exact Ht|]. split; [exact Hk|]. split; [rewrite Hk; reflexivity|].
  subst new. clear Ht Hk.
  destruct (data_preparation_ok A E _ _ _ _ D)
    as (dp & cd & s0 & l0 & xs & ys & Heq & _ & _ & _ & _ & w' & Tw').
  injection Heq; intros; subst cfg sl ll sp. rewrite T1 in Tw'.
  destruct (quick_run_update_fields quick dp cd)
    as (_ & _ & _ & _ & _ & Hm & Htr & Hb & Hg & _).
  destruct (cell_loaders_events A E _ _ _ _ _ _ L) as (pre & Tl & Kp).
  rewrite T3 in Tl; apply app_inv_head in Tl. subst n3.
  destruct (cell_examples_events A E _ _ _ _ _ _ X) as (e & Te & Ke).
  rewrite T7 in Te; apply app_inv_head in Te. subst n7.
  cbn [train_sentence_list train_labels_list test_sentence_list test_labels_list] in *.
  rewrite Hm, Htr, Hb, Hg in *.
  set (tr := tts_train A 100%Z (3 # 10) (length xs)).
  set (te := tts_test A 100%Z (3 # 10) (length xs)).
  exists s0, l0, (select xs tr), (select xs te), (select ys tr), (select ys te),
    (processor ld), (label_map ld).
  split.
  { rewrite filter_app.
    erewrite (filter_of_kind_last KSplit (K_imports ++ K_config ++ K_download_parse ++ K_subsample)
                n1 (trace w) (trace w'))
      by first [rewrite K1; reflexivity | reflexivity | exact Tw'].
    filter_segments KSplit. cbn [filter of_kind kind_of kind_eqb fst app].
    filter_segments KSplit. rewrite ?app_nil_r. reflexivity. }
  cbv zeta.
  wraps_segments. rewrite ?app_nil_r. reflexivity.
Qed.

Lemma notebook_call_sequence_witness :
  exists w1, demo_run = (Ok tt, w1) /\
  exists new, trace w1 = trace Demo.world0 ++ new /\ kinds new = K_notebook /\
    filter in_pipeline (kinds new) =
      [KDownload; KReadConll; KSplit; KPreprocess; KDataloader; KPreprocess;
       KDataloader; KTokenClassifier; KFit; KPredict; KReport; KPreprocess;
       KDataloader; KPredict] /\
    exists sl ll trs tes trl tel proc lm,
      filter (of_kind KSplit) new =
        [(CTrainTestSplit sl ll (PFin (3 # 10)) (Some 100%Z),
          Ok (VList [trs; tes; trl; tel]))] /\
      let trd := CPreprocess proc trs 200 trl lm "X" in
      let ted := CPreprocess proc tes 200 tel lm "X" in
      let sds := CPreprocess proc (VList (map (fun x => str_list (PyStr.split_ws x)) sample_text))
                   200 VNone lm "X" in
      map fst (filter wraps_data new) =
        [trd; CDataloaderFromDataset (VRes trd) 16 VNone true false;
         ted; CDataloaderFromDataset (VRes ted) 16 VNone false false;
         sds; CDataloaderFromDataset (VRes sds) 16 VNone false false].
Proof.
  eexists; split; [vm_compute; reflexivity|].
  apply (notebook_call_sequence Demo.algo0 Demo.env0 false Demo.world0).
  vm_compute; reflexivity.
Defined.


(** ** C5: the held-out split *)

(** C5.  Assume numpy's [RandomState(100).permutation(n)] is a
    permutation of [0 .. n-1].  In a run of the notebook that completes,
    [train_test_split] is called once, on the sub-sampled sentences and
    labels, with [test_size=0.3] and [random_state=100]; the test
    positions [te] are [ceil(0.3 * n)] of the [n] positions and, with the
    training positions [tr], they partition the positions.  [model.fit]
    is called once, on the data loader of the training positions only;
    [model.predict] is first called on the data loader of the test
    positions, and its predictions and the test data set are the only
    inputs of the one classification report; the only other [predict]
    call scores the two example sentences. *)
Theorem notebook_scores_held_out_split A E quick w w1
    (Hperm : forall n, Permutation (rs_permutation A 100%Z n) (seq 0 n)) :
  notebook A E quick w = (Ok tt, w1) ->
  exists new sl ll xs ys tr te proc lm model preds report,
    trace w1 = trace w ++ new /\
    py_iter sl = Ok xs /\ py_iter ll = Ok ys /\ length xs = length ys /\
    filter (of_kind KSplit) new =
      [(CTrainTestSplit sl ll (PFin (3 # 10)) (Some 100%Z),
        Ok (VList [select xs tr; select xs te; select ys tr; select ys te]))] /\
    length te = tts_n_test (3 # 10) (length xs) /\
    Permutation (te ++ tr) (seq 0 (length xs)) /\
    let trd := VRes (CPreprocess proc (select xs tr) 200 (select ys tr) lm "X") in
    let ted := VRes (CPreprocess proc (select xs te) 200 (select ys te) lm "X") in
    let tel := VRes (CDataloaderFromDataset ted 16 VNone false false) in
    filter (of_kind KFit) new =
      [(CFit model (VRes (CDataloaderFromDataset trd 16 VNone true false))
          (if quick then 1 else 5)%Z VNone (-1) (PFin 0) (PFin (5 # 100000))
          (PFin (1 # 100000000)) 0 false 100%Z, Ok VNone)] /\
    preds = VRes (CPredict model tel VNone true) /\
    filter (of_kind KPredict) new =
      [(CPredict model tel VNone true, Ok preds);
       (CPredict model (sample_dataloader proc lm) VNone true,
        Ok (VRes (CPredict model (sample_dataloader proc lm) VNone true)))] /\
    filter (of_kind KReport) new =
      [(CClassificationReport (VRes (CGetTrueTestLabels model lm ted))
          (VRes (CGetPredictedTokenLabels model preds lm ted)) 2, Ok report)].
Proof.
  intros H.
  destruct (notebook_trace A E quick w w1 H)
    as (cfg & sl & ll & sp & ld & model & preds & report & w2 & w3 & w4 & w5 & w6 & w7 & w8 &
        n1 & n2 & n3 & n4 & n5 & n6 & n7 & n8 & D & L & Tr & P & R & X & _ &
        T1 & T2 & T3 & T4 & T5 & T6 & T7 & T8 & K1 & K2 & K3 & K4 & K5 & K6 & K7 & K8).
  destruct (data_preparation_ok A E _ _ _ _ D)
    as (dp & cd & s0 & l0 & xs & ys & Heq & Hx & Hy & Hl & Hn & w' & Tw').
  injection Heq; intros; subst cfg sl ll sp. rewrite T1 in Tw'.
  destruct (quick_run_update_fields quick dp cd)
    as (_ & Hs & He & _ & _ & Hm & Ht & Hb & Hg & _).
  destruct (cell_loaders_ok A E _ _ _ _ _ _ L) as (proc & lm & Hld). cbv zeta in Hld. subst ld.
  destruct (cell_train_ok A E _ _ _ _ _ Tr) as (f1 & f2 & Tf & Kf1 & Kf2).
  rewrite T4 in Tf; apply app_inv_head in Tf.
  destruct (cell_predict_ok A E _ _ _ _ _ P) as (Hp & p1 & p2 & Tp & Kp1 & Kp2).
  rewrite T5 in Tp; apply app_inv_head in Tp.
  destruct (cell_report_ok A E _ _ _ _ _ _ R) as (r1 & Tr1 & Kr).
  rewrite T6 in Tr1; apply app_inv_head in Tr1.
  destruct (cell_examples_ok A E _ _ _ _ _ _ X) as (e1 & e2 & Te & Ke1 & Ke2).
  rewrite T7 in Te; apply app_inv_head in Te.
  cbn [train_dataloader test_dataloader test_dataset label_map processor
       train_sentence_list train_labels_list test_sentence_list test_labels_list] in *.
  rewrite Hs, He, Hm, Ht, Hb, Hg in *.
  destruct (tts_partition A 100%Z (3 # 10) (length xs) (Hperm _)) as [Hpart Hlen]; [lia|].
  exists (n1 ++ n2 ++ n3 ++ n4 ++ n5 ++ n6 ++ n7 ++ n8), s0, l0, xs, ys,
    (tts_train A 100%Z (3 # 10) (length xs)), (tts_test A 100%Z (3 # 10) (length xs)),
    proc, lm, model, preds, report.
  split; [trace_segments|].
  subst n4 n5 n6 n7 preds.
  do 3 (split; [assumption|]).
  split.
  { rewrite filter_app.
    erewrite (filter_of_kind_last KSplit (K_imports ++ K_config ++ K_download_parse ++ K_subsample)
                n1 (trace w) (trace w'))
      by first [rewrite K1; reflexivity | reflexivity | exact Tw'].
    filter_segments KSplit. cbn [filter of_kind kind_of kind_eqb fst app].
    filter_segments KSplit. rewrite ?app_nil_r. reflexivity. }
  split; [exact Hlen|].
  split; [rewrite Hpart; apply Hperm|].
  cbv zeta. split; [|split; [reflexivity|split]].
  - filter_segments KFit. cbn [filter of_kind kind_of kind_eqb fst app].
    filter_segments KFit. rewrite ?app_nil_r. reflexivity.
  - filter_segments KPredict. cbn [filter of_kind kind_of kind_eqb fst app].
    filter_segments KPredict. rewrite ?app_nil_r. reflexivity.
  - filter_segments KReport. cbn [filter of_kind kind_of kind_eqb fst app].
    filter_segments KReport. rewrite ?app_nil_r. reflexivity.
Qed.


Lemma demo_rotate_permutation {X} s (l : list X) : Permutation (Demo.rotate s l) l.
Proof.
  unfold Demo.rotate. eapply perm_trans; [apply Permutation_app_comm|].
  rewrite firstn_skipn. reflexivity.
Qed.

Lemma notebook_scores_held_out_split_witness :
  exists w1, demo_run = (Ok tt, w1) /\
  exists new sl ll xs ys tr te proc lm model preds report,
    trace w1 = trace Demo.world0 ++ new /\
    py_iter sl = Ok xs /\ py_iter ll = Ok ys /\ length xs = length ys /\
    filter (of_kind KSplit) new =
      [(CTrainTestSplit sl ll (PFin (3 # 10)) (Some 100%Z),
        Ok (VList [select xs tr; select xs te; select ys tr; select ys te]))] /\
    length te = tts_n_test (3 # 10) (length xs) /\
    Permutation (te ++ tr) (seq 0 (length xs)) /\
    let trd := VRes (CPreprocess proc (select xs tr) 200 (select ys tr) lm "X") in
    let ted := VRes (CPreprocess proc (select xs te) 200 (select ys te) lm "X") in
    let tel := VRes (CDataloaderFromDataset ted 16 VNone false false) in
    filter (of_kind KFit) new =
      [(CFit model (VRes (CDataloaderFromDataset trd 16 VNone true false))
          5%Z VNone (-1) (PFin 0) (PFin (5 # 100000))
          (PFin (1 # 100000000)) 0 false 100%Z, Ok VNone)] /\
    preds = VRes (CPredict model tel VNone true) /\
    filter (of_kind KPredict) new =
      [(CPredict model tel VNone true, Ok preds);
       (CPredict model (sample_dataloader proc lm) VNone true,
        Ok (VRes (CPredict model (sample_dataloader proc lm) VNone true)))] /\
    filter (of_kind KReport) new =
      [(CClassificationReport (VRes (CGetTrueTestLabels model lm ted))
          (VRes (CGetPredictedTokenLabels model preds lm ted)) 2, Ok report)].
Proof.
  eexists; split; [vm_compute; reflexivity|].
  apply (notebook_scores_held_out_split Demo.algo0 Demo.env0 false Demo.world0).
  - intros n. apply demo_rotate_permutation.
  - vm_compute; reflexivity.
Defined.


(** ** C7: the sub-sample keeps the pairs *)

Lemma length_zip2 xs ys : length (zip2 xs ys) = Nat.min (length xs) (length ys).
Proof.
  revert ys; induction xs as [|x xs IH]; intros [|y ys]; cbn; auto.
Qed.

Lemma nth_zip2 xs ys j :
  j < length xs -> j < length ys ->
  nth j (zip2 xs ys) VNone = VList [nth j xs VNone; nth j ys VNone].
Proof.
  revert ys j; induction xs as [|x xs IH]; intros [|y ys] j Hx Hy; cbn in *; try lia.
  destruct j; [reflexivity|]. apply IH; lia.
Qed.

Lemma transpose_pairs_map (a b : nat -> value) idx :
  transpose_pairs (map (fun j => VList [a j; b j]) idx) = Ok (map a idx, map b idx).
Proof. induction idx as [|j idx IH]; cbn; [reflexivity|]. rewrite IH. reflexivity. Qed.

(** C7.  Assume [random.sample] draws distinct positions of its
    population.  When the sub-sampling of cell 9 returns normally, with
    [sample_size = int(SAMPLE_RATIO * len(sentence_list))], there are
    [sample_size] distinct positions [idx], each a position of both input
    lists, such that the new sentence list and the new label list are the
    input lists at [idx], in the same order: the two lists have
    [sample_size] elements each, and the i-th sentence kept comes with the
    labels it had in the parsed data. *)
Theorem cell_subsample_keeps_pairs A E cfg sl ll w s' l' w1 :
  sample_contract A ->
  cell_subsample A E cfg sl ll w = (Ok (s', l'), w1) ->
  exists xs ys n x k idx,
    py_iter sl = Ok xs /\ py_iter ll = Ok ys /\ py_len sl = Ok n /\
    py_mul (SAMPLE_RATIO cfg) (VInt n) = Ok x /\ py_int x = Ok k /\ (0 <= k)%Z /\
    length idx = Z.to_nat k /\ NoDup idx /\
    Forall (fun j => j < length xs /\ j < length ys) idx /\
    s' = select xs idx /\ l' = select ys idx.
Proof.
  intros Hc. unfold cell_subsample; intros H; run_inv.
  repeat match goal with He : Ok _ = Ok _ |- _ => injection He; intros; subst; clear He end.
  match goal with Hi : Invoked _ _ (CRandomSample _ _) _ _ _ |- _ =>
    unfold Invoked, invoke, random_sample in Hi; cbn [py_iter] in Hi; rename Hi into Hs end.
  match type of Hs with context [if ?b then _ else _] => destruct b eqn:Hk end;
    [discriminate Hs|].
  match type of Hs with context [mt_sample A ?r ?n ?k] =>
    destruct (mt_sample A r n k) as [idx g] eqn:Hm end.
  injection Hs; intros; subst.
  apply orb_false_iff in Hk; destruct Hk as [Hk0 Hkn].
  apply Z.ltb_ge in Hk0; apply Z.ltb_ge in Hkn. rewrite length_zip2 in Hkn, Hm.
  match goal with Hm : mt_sample A ?r ?n ?kk = _ |- _ =>
    destruct (Hc r n kk) as (Hl & Hnd & Hf); [lia|];
    rewrite Hm in Hl, Hnd, Hf; cbn [fst] in Hl, Hnd, Hf end.
  assert (Hb : Forall (fun j => j < length a1 /\ j < length a2) idx).
  { eapply Forall_impl; [|exact Hf]. cbv beta. intros j Hj. lia. }
  unfold select in *; cbn [py_iter] in *.
  match goal with Hi : Ok _ = Ok _ |- _ => injection Hi; intros; subst end.
  assert (Hmap : map (fun j => nth j (zip2 a1 a2) VNone) idx =
                 map (fun j => VList [nth j a1 VNone; nth j a2 VNone]) idx).
  { apply map_ext_in. intros j Hj. rewrite Forall_forall in Hb.
    destruct (Hb j Hj). apply nth_zip2; assumption. }
  rewrite Hmap in *.
  unfold unzip_list in *.
  destruct idx as [|j0 idx']; cbn [map] in *.
  { match goal with Hu : Ok _ = Ok _ |- _ => injection Hu; intros; subst end.
    discriminate. }
  rewrite <- (map_cons (fun j => VList [nth j a1 VNone; nth j a2 VNone])) in *.
  rewrite transpose_pairs_map in *. cbn [rbind fst snd] in *.
  match goal with Hu : Ok _ = Ok _ |- _ => injection Hu; intros; subst end.
  cbn in H. injection H; intros; subst.
  do 6 eexists. repeat split; try eassumption; try lia. reflexivity. reflexivity.
Qed.


Lemma demo_sample_contract : sample_contract Demo.algo0.
Proof.
  intros r n k Hk. cbn [mt_sample Demo.algo0 fst].
  set (l := Demo.rotate (N.to_nat r mod S n) (seq 0 n)).
  assert (Hp : Permutation l (seq 0 n)) by apply demo_rotate_permutation.
  assert (Hl : length l = n) by (rewrite (Permutation_length Hp), length_seq; reflexivity).
  assert (Hnd : NoDup l) by exact (Permutation_NoDup (Permutation_sym Hp) (seq_NoDup n 0)).
  split; [rewrite length_firstn; lia|]. split.
  - rewrite <- (firstn_skipn k l) in Hnd. exact (NoDup_app_remove_r _ _ Hnd).
  - apply Forall_forall. intros j Hj.
    assert (Hin : In j l) by (rewrite <- (firstn_skipn k l); apply in_or_app; left; exact Hj).
    apply (Permutation_in _ Hp), in_seq in Hin. lia.
Qed.

Lemma cell_subsample_keeps_pairs_witness :
  exists s' l' w1,
    cell_subsample Demo.algo0 Demo.env0 demo_config (VList Demo.conll_sentences)
      (VList Demo.conll_labels) Demo.world0 = (Ok (s', l'), w1) /\
  exists xs ys n x k idx,
    py_iter (VList Demo.conll_sentences) = Ok xs /\ py_iter (VList Demo.conll_labels) = Ok ys /\
    py_len (VList Demo.conll_sentences) = Ok n /\
    py_mul (SAMPLE_RATIO demo_config) (VInt n) = Ok x /\ py_int x = Ok k /\ (0 <= k)%Z /\
    length idx = Z.to_nat k /\ NoDup idx /\
    Forall (fun j => j < length xs /\ j < length ys) idx /\
    s' = select xs idx /\ l' = select ys idx.
Proof.
  do 3 eexists; split; [vm_compute; reflexivity|].
  eapply (cell_subsample_keeps_pairs Demo.algo0 Demo.env0 demo_config
           (VList Demo.conll_sentences) (VList Demo.conll_labels) Demo.world0).
  - exact demo_sample_contract.
  - vm_compute; reflexivity.
Defined.


(** ** C8: determinism of the data preparation *)

(** Case analysis on the innermost scrutinees first, so that both sides
    of an equation are split together. *)
Ltac destruct_matches :=
  repeat match goal with
  | |- context [match ?x with _ => _ end] =>
      lazymatch x with
      | context [match _ with _ => _ end] => fail
      | _ => destruct x; cbn
      end
  end.

Lemma cell_subsample_result A E1 E2 cfg1 cfg2 sl ll w1 w2 :
  SAMPLE_RATIO cfg1 = SAMPLE_RATIO cfg2 -> RANDOM_SEED cfg1 = RANDOM_SEED cfg2 ->
  fst (cell_subsample A E1 cfg1 sl ll w1) = fst (cell_subsample A E2 cfg2 sl ll w2).
Proof.
  intros Hr Hs. unfold cell_subsample, bind, invoke, liftR, ret. rewrite Hr, Hs. cbn.
  destruct_matches; reflexivity.
Qed.

Lemma cell_split_result A E1 E2 cfg1 cfg2 sl ll w1 w2 :
  TEST_DATA_FRACTION cfg1 = TEST_DATA_FRACTION cfg2 -> RANDOM_SEED cfg1 = RANDOM_SEED cfg2 ->
  fst (cell_split A E1 cfg1 sl ll w1) = fst (cell_split A E2 cfg2 sl ll w2).
Proof.
  intros Ht Hs. unfold cell_split, bind, invoke, liftR, ret, train_test_split.
  rewrite Ht, Hs. cbn. destruct_matches; reflexivity.
Qed.

Lemma cell_download_parse_ok A E cfg w r w1 :
  cell_download_parse A E cfg w = (Ok r, w1) ->
  exists h path, unpack2 (env_data E h (CReadConllFile path " ")) = Ok r.
Proof. unfold cell_download_parse; intros H; run_inv; env_inv; eauto. Qed.

(** C8: two successful data preparations, from any two worlds and
    environments whose parse of the CoNLL file gives the same value (the
    same downloaded data file, whatever its temporary path), yield the same
    sub-sampled sentence and label lists and the same train/test split. *)
Theorem data_preparation_deterministic A E1 E2 quick w1 w2 c1 s1 l1 sp1 w1' c2 s2 l2 sp2 w2'
  (Hdata : forall h1 h2 p1 p2,
     env_data E1 h1 (CReadConllFile p1 " ") = env_data E2 h2 (CReadConllFile p2 " ")) :
  data_preparation A E1 quick w1 = (Ok (c1, s1, l1, sp1), w1') ->
  data_preparation A E2 quick w2 = (Ok (c2, s2, l2, sp2), w2') ->
  s1 = s2 /\ l1 = l2 /\ sp1 = sp2.
Proof.
  unfold data_preparation. intros H1 H2.
  apply bind_ok in H1 as (u1 & wa1 & _ & H1). apply bind_ok in H1 as (cfg1 & wb1 & Hc1 & H1).
  apply bind_ok in H1 as ([x1 y1] & wc1 & Hd1 & H1).
  apply bind_ok in H1 as ([s1' l1'] & wd1 & Hs1 & H1).
  apply bind_ok in H1 as (sp1' & we1 & Hp1 & H1).
  apply bind_ok in H2 as (u2 & wa2 & _ & H2). apply bind_ok in H2 as (cfg2 & wb2 & Hc2 & H2).
  apply bind_ok in H2 as ([x2 y2] & wc2 & Hd2 & H2).
  apply bind_ok in H2 as ([s2' l2'] & wd2 & Hs2 & H2).
  apply bind_ok in H2 as (sp2' & we2 & Hp2 & H2).
  unfold ret in H1, H2. injection H1 as <- <- <- <- _. injection H2 as <- <- <- <- _.
  apply cell_config_ok in Hc1 as (dp1 & cd1 & ->). apply cell_config_ok in Hc2 as (dp2 & cd2 & ->).
  apply cell_download_parse_ok in Hd1 as (h1 & p1 & Hd1).
  apply cell_download_parse_ok in Hd2 as (h2 & p2 & Hd2).
  rewrite Hdata with (h2 := h2) (p2 := p2) in Hd1. rewrite Hd1 in Hd2. injection Hd2 as <- <-.
  pose proof (quick_run_update_fields quick dp1 cd1) as (Ft1 & Fs1 & _ & Fr1 & _).
  pose proof (quick_run_update_fields quick dp2 cd2) as (Ft2 & Fs2 & _ & Fr2 & _).
  cbv zeta in *.
  pose proof (cell_subsample_result A E1 E2
    (quick_run_update (base_config quick dp1 cd1)) (quick_run_update (base_config quick dp2 cd2))
    x1 y1 wc1 wc2) as Es.
  rewrite Hs1, Hs2 in Es. cbn in Es. specialize (Es ltac:(congruence) ltac:(congruence)).
  injection Es as <- <-.
  pose proof (cell_split_result A E1 E2
    (quick_run_update (base_config quick dp1 cd1)) (quick_run_update (base_config quick dp2 cd2))
    s1' l1' wd1 wd2) as Ep.
  rewrite Hp1, Hp2 in Ep. cbn in Ep. specialize (Ep ltac:(congruence) ltac:(congruence)).
  injection Ep as <-. auto.
Qed.


Lemma data_preparation_deterministic_witness :
  exists c1 s1 l1 sp1 w1' c2 s2 l2 sp2 w2',
    data_preparation Demo.algo0 Demo.env0 false Demo.world0 = (Ok (c1, s1, l1, sp1), w1') /\
    data_preparation Demo.algo0 demo_env_other_tmp false demo_world_other
      = (Ok (c2, s2, l2, sp2), w2') /\
    s1 = s2 /\ l1 = l2 /\ sp1 = sp2.
Proof.
  do 10 eexists. split; [vm_compute; reflexivity|]. split; [vm_compute; reflexivity|].
  eapply (data_preparation_deterministic Demo.algo0 Demo.env0 demo_env_other_tmp false
           Demo.world0 demo_world_other).
  - intros; reflexivity.
  - vm_compute; reflexivity.
  - vm_compute; reflexivity.
Defined.

(** ** C6: the branch on [QUICK_RUN] *)

Lemma cell_subsample_call A E cfg sl ll w r w1 :
  cell_subsample A E cfg sl ll w = (Ok r, w1) ->
  exists n x k pairs v, py_len sl = Ok n /\ py_mul (SAMPLE_RATIO cfg) (VInt n) = Ok x /\
    py_int x = Ok k /\
    exists pre, trace w1 = trace w ++ pre ++ [(CRandomSample pairs k, Ok v)].
Proof.
  unfold cell_subsample; intros H; run_inv.
  repeat match goal with Hx : Ok _ = Ok _ |- _ => injection Hx as <- end.
  trace_rw. do 5 eexists; repeat split; try eassumption.
  eexists [_]; rewrite <- ?app_assoc; reflexivity.
Qed.


Lemma cell_download_parse_events A E cfg w r w1 :
  cell_download_parse A E cfg w = (Ok r, w1) ->
  exists v0 path parsed,
    trace w1 = trace w ++
      [(CMaybeDownload (DATA_URL cfg) (last_component (DATA_URL cfg)) (DATA_PATH cfg), Ok v0);
       (CReadConllFile path " ", Ok parsed)] /\
    unpack2 parsed = Ok r.
Proof.
  unfold cell_download_parse; intros H; run_inv; trace_rw.
  do 3 eexists. split; [rewrite <- app_assoc; reflexivity | eassumption].
Qed.

Lemma py_len_nonneg v n : py_len v = Ok n -> (0 <= n)%Z.
Proof. destruct v; cbn; intros H; try discriminate; injection H as <-; lia. Qed.

Lemma sample_size_of quick dp cd n x k :
  (0 <= n)%Z ->
  py_mul (SAMPLE_RATIO (quick_run_update (base_config quick dp cd))) (VInt n) = Ok x ->
  py_int x = Ok k -> k = (if quick then n / 10 else n)%Z.
Proof.
  intros Hn. destruct quick; cbn; intros Hx; injection Hx as <-; cbn; intros Hk;
    injection Hk as <-; [|destruct n; reflexivity].
  replace (Qle_bool 0 ((1 # 10) * inject_Z n)) with true.
  - unfold Qfloor, Qmult, inject_Z; cbn. destruct n; reflexivity.
  - symmetry. apply Qle_bool_iff. unfold Qle, Qmult, inject_Z; cbn. destruct n; cbn; lia.
Qed.

(** C6 (amended).  The data preparation branches once, on [QUICK_RUN] in
    the parameters cell: a run that succeeds uses the configuration of
    that cell updated by the branch.  It reads the CoNLL file once, and
    calls [random.sample] once, with [k = int(0.1 * n)] when [QUICK_RUN]
    is true and [k = n] when it is false, [n] the number of sentences
    of that one [read_conll_file] result. *)
Theorem data_preparation_sample_size A E quick w c s l sp w1 :
  data_preparation A E quick w = (Ok (c, s, l, sp), w1) ->
  (exists dp cd, c = quick_run_update (base_config quick dp cd)) /\
  exists new path parsed sl ll n pairs v,
    trace w1 = trace w ++ new /\
    filter (of_kind KReadConll) new = [(CReadConllFile path " ", Ok parsed)] /\
    unpack2 parsed = Ok (sl, ll) /\ py_len sl = Ok n /\
    filter (of_kind KRandomSample) new =
      [(CRandomSample pairs (if quick then n / 10 else n)%Z, Ok v)].
Proof.
  unfold data_preparation. intros H.
  apply bind_ok in H as (u & wa & Hi & H). apply bind_ok in H as (cfg & wb & Hc & H).
  apply bind_ok in H as ([x y] & wc & Hd & H).
  apply bind_ok in H as ([s' l'] & wd & Hs & H).
  apply bind_ok in H as (sp' & we & Hp & H).
  unfold ret in H. injection H as <- <- <- <- <-.
  apply cell_imports_kinds in Hi as (n1 & Ti & Ki).
  pose proof (cell_config_kinds _ _ _ _ _ _ Hc) as (n2 & Tc & Kc).
  pose proof (cell_subsample_kinds _ _ _ _ _ _ _ _ Hs) as (n4 & Ts & Ks).
  apply cell_download_parse_events in Hd as (v0 & path & parsed & Td & Hd).
  apply cell_config_ok in Hc as (dp & cd & ->).
  split; [eauto|].
  apply cell_subsample_call in Hs as (n & m & k & pairs & v & Hn & Hm & Hk & pre & Ts').
  rewrite (sample_size_of quick dp cd n m k (py_len_nonneg _ _ Hn) Hm Hk) in Ts'.
  rewrite Ts in Ts'. apply app_inv_head in Ts'. subst n4.
  rewrite kinds_app in Ks. unfold K_subsample in Ks.
  apply (app_inj_tail (kinds pre) [KRandomSeed]) in Ks as [Kp _].
  apply cell_split_kinds in Hp as (n5 & T5 & K5).
  exists (n1 ++ n2 ++ [(CMaybeDownload (DATA_URL (quick_run_update (base_config quick dp cd)))
             (last_component (DATA_URL (quick_run_update (base_config quick dp cd))))
             (DATA_PATH (quick_run_update (base_config quick dp cd))), Ok v0);
           (CReadConllFile path " ", Ok parsed)] ++ (pre ++ [(CRandomSample pairs
             (if quick then n / 10 else n)%Z, Ok v)]) ++ n5),
    path, parsed, x, y, n, pairs, v.
  split; [rewrite T5, Ts, Td, Tc, Ti; rewrite <- !app_assoc; reflexivity|].
  split; [filter_done KReadConll|].
  split; [exact Hd|]. split; [exact Hn|].
  filter_done KRandomSample.
Qed.

(** C6 (counterexample).  On the same data file, the data preparation
    returns a sub-sample of two sentences when [QUICK_RUN] is true and of
    all twenty when it is false: its result depends on the condition
    [if QUICK_RUN:] evaluated in the notebook's own code. *)
Lemma data_preparation_depends_on_quick_run :
  exists c1 s1 l1 sp1 w1 c2 s2 l2 sp2 w2,
    data_preparation Demo.algo0 demo_env_twenty true Demo.world0 = (Ok (c1, s1, l1, sp1), w1) /\
    data_preparation Demo.algo0 demo_env_twenty false Demo.world0 = (Ok (c2, s2, l2, sp2), w2) /\
    py_len s1 = Ok 2%Z /\ py_len s2 = Ok 20%Z.
Proof.
  do 10 eexists. split; [vm_compute; reflexivity|]. split; [vm_compute; reflexivity|].
  split; vm_compute; reflexivity.
Qed.

Lemma data_preparation_sample_size_witness :
  exists c s l sp w1,
    data_preparation Demo.algo0 demo_env_twenty true Demo.world0 = (Ok (c, s, l, sp), w1) /\
  (exists dp cd, c = quick_run_update (base_config true dp cd)) /\
  exists new path parsed sl ll n pairs v,
    trace w1 = trace Demo.world0 ++ new /\
    filter (of_kind KReadConll) new = [(CReadConllFile path " ", Ok parsed)] /\
    unpack2 parsed = Ok (sl, ll) /\ py_len sl = Ok n /\
    filter (of_kind KRandomSample) new =
      [(CRandomSample pairs (if true then n / 10 else n)%Z, Ok v)].
Proof.
  do 5 eexists. split; [vm_compute; reflexivity|].
  eapply (data_preparation_sample_size Demo.algo0 demo_env_twenty true Demo.world0).
  vm_compute; reflexivity.
Defined.


(** ** C9: the metrics cell *)

(** C9 (counterexample).  On a report whose field 3 does not parse as a
    float, the cell raises after the precision has been glued. *)
Lemma cell_glue_records_before_raising :
  exists e p w1,
    cell_glue Demo.algo0 Demo.env0 (VStr report_bad_recall) Demo.world0 = (Err e, w1) /\
    trace w1 = [(CGlue "precision" (VFloat p), Ok VNone)].
Proof. do 3 eexists. split; vm_compute; reflexivity. Qed.

(** C9 (amended).  When [sb.glue] does not raise: if the report has no
    second-to-last line the cell raises before any glue; otherwise it
    glues, in order, the metrics of [metric_fields] up to the first field
    that is missing or does not parse as a float, and it completes
    exactly when the three fields parse; when it raises, the metrics
    before the failing field have been glued. *)
Theorem cell_glue_spec A E report w r w1
  (Hglue : forall h n v, env_raise E h (CGlue n v) = None) :
  cell_glue A E report w = (r, w1) ->
  match report_splits report with
  | Err e => r = Err e /\ trace w1 = trace w
  | Ok splits =>
      trace w1 = trace w ++ map glue_event (leading_metrics splits metric_fields) /\
      (r = Ok tt <-> length (leading_metrics splits metric_fields) = 3)
  end.
Proof.
  unfold cell_glue, glue_field, bind, liftR, ret, invoke, record. cbn.
  destruct (report_splits report) as [splits|e]; cbn;
    [|intros H; injection H as <- <-; auto].
  unfold leading_metrics, glue_event; cbn.
  repeat (rewrite ?Hglue; cbn;
          match goal with
          | |- context [match ?x with _ => _ end] =>
              lazymatch x with
              | context [match _ with _ => _ end] => fail
              | _ => destruct x
              end
          end);
  rewrite ?Hglue; cbn; intros H; injection H as <- <-; cbn;
    rewrite <- ?app_assoc, ?app_nil_r; cbn; (split; [reflexivity | split; intros; congruence]).
Qed.

Lemma cell_glue_spec_witness :
  exists r w1,
    cell_glue Demo.algo0 Demo.env0 (VStr report_bad_recall) Demo.world0 = (r, w1) /\
  match report_splits (VStr report_bad_recall) with
  | Err e => r = Err e /\ trace w1 = trace Demo.world0
  | Ok splits =>
      trace w1 = trace Demo.world0 ++ map glue_event (leading_metrics splits metric_fields) /\
      (r = Ok tt <-> length (leading_metrics splits metric_fields) = 3)
  end.
Proof.
  do 2 eexists. split; [vm_compute; reflexivity|].
  apply (cell_glue_spec Demo.algo0 Demo.env0 (VStr report_bad_recall) Demo.world0).
  - intros; reflexivity.
  - vm_compute; reflexivity.
Defined.

(** * Further properties of the notebook code *)

(** ** Python's string splitting *)

Lemma append_assoc (a b c : string) : (a ++ (b ++ c) = (a ++ b) ++ c)%string.
Proof. induction a as [|x a IH]; cbn; [reflexivity|]. rewrite IH. reflexivity. Qed.

Lemma append_nil_r (a : string) : (a ++ EmptyString)%string = a.
Proof. induction a as [|x a IH]; cbn; [reflexivity|]. rewrite IH. reflexivity. Qed.

Lemma split_on_nonempty sep s : PyStr.split_on sep s <> [].
Proof.
  destruct s as [|c s]; cbn; [discriminate|].
  destruct (Ascii.eqb c sep); [discriminate|].
  destruct (PyStr.split_on sep s); discriminate.
Qed.

Lemma split_on_app sep a b :
  PyStr.split_on sep (a ++ String sep b) = PyStr.split_on sep a ++ PyStr.split_on sep b.
Proof.
  induction a as [|c a IH]; cbn.
  - rewrite Ascii.eqb_refl. reflexivity.
  - destruct (Ascii.eqb c sep); [rewrite IH; reflexivity|].
    rewrite IH. destruct (PyStr.split_on sep a) as [|p ps] eqn:Ha;
      [exfalso; exact (split_on_nonempty sep a Ha)|reflexivity].
Qed.

Lemma split_on_no_sep sep s : ~ has_char sep s -> PyStr.split_on sep s = [s].
Proof.
  unfold has_char. induction s as [|c s IH]; cbn; intros Hn; [reflexivity|].
  destruct (Ascii.eqb c sep) eqn:Hc.
  - apply Ascii.eqb_eq in Hc. exfalso. apply Hn. left. exact Hc.
  - rewrite IH by (intros Hi; apply Hn; right; exact Hi). reflexivity.
Qed.

(** The last occurrence of a character splits a string into the part
    before it and a part without it. *)
Lemma last_occurrence c s :
  has_char c s -> exists a b : string, s = (a ++ String c b)%string /\ ~ has_char c b.
Proof.
  unfold has_char. induction s as [|x s IH]; cbn; [tauto|]. intros Hin.
  destruct (in_dec ascii_dec c (list_ascii_of_string s)) as [Hs|Hs].
  - destruct (IH Hs) as (a & b & -> & Hb). exists (String x a), b. split; [reflexivity|exact Hb].
  - destruct Hin as [<-|Hin]; [|contradiction].
    exists EmptyString, s. split; [reflexivity|exact Hs].
Qed.

(** X1.  [s.split(sep)] cuts [s] at every occurrence of [sep]: no piece
    contains [sep], there is one piece more than occurrences of [sep], and
    joining the pieces with [sep] gives back [s]. *)
Theorem split_on_join sep s :
  join_on sep (PyStr.split_on sep s) = s /\
  Forall (fun p => ~ has_char sep p) (PyStr.split_on sep s) /\
  length (PyStr.split_on sep s) = S (count_occ ascii_dec (list_ascii_of_string s) sep).
Proof.
  unfold has_char. induction s as [|c s IH]; cbn.
  - repeat split; auto.
  - destruct IH as (IHj & IHf & IHl).
    destruct (Ascii.eqb c sep) eqn:Hc.
    + apply Ascii.eqb_eq in Hc. subst c.
      destruct (ascii_dec sep sep) as [_|]; [|contradiction].
      repeat split.
      * destruct (PyStr.split_on sep s) eqn:Hs; [exfalso; exact (split_on_nonempty _ _ Hs)|].
        cbn. rewrite <- IHj. reflexivity.
      * constructor; [cbn; tauto|exact IHf].
      * cbn. rewrite IHl. reflexivity.
    + apply Ascii.eqb_neq in Hc.
      destruct (ascii_dec c sep) as [|_]; [contradiction|].
      destruct (PyStr.split_on sep s) as [|p ps] eqn:Hs;
        [exfalso; exact (split_on_nonempty _ _ Hs)|].
      repeat split.
      * cbn. destruct ps; cbn in *; rewrite IHj; reflexivity.
      * inversion IHf; subst. constructor; [|assumption].
        cbn. intros [Heq|Hi]; [congruence|contradiction].
      * exact IHl.
Qed.


Lemma py_list_getitem_minus2 {X} (d : X) l x y :
  py_list_getitem d (l ++ [x; y]) (-2) = Ok x.
Proof.
  unfold py_list_getitem, py_index. rewrite length_app. cbn [length].
  replace ((0 <=? -2)%Z) with false by reflexivity. cbn [andb].
  replace ((- Z.of_nat (length l + 2) <=? -2)%Z) with true by (symmetry; apply Z.leb_le; lia).
  replace ((-2 <? 0)%Z) with true by reflexivity. cbn.
  replace (Z.to_nat (Z.of_nat (length l + 2) + -2)) with (length l) by lia.
  rewrite app_nth2, Nat.sub_diag by lia. reflexivity.
Qed.

(** X2.  [report.split('\n')[-2].split()] takes the line before the last
    newline: for a report made of any text [a] that is empty or ends with
    a newline, then a line [line], a newline and a last piece [last],
    neither of them holding a newline, the fields are the
    whitespace-separated words of [line].  A report printed with a final
    newline has an empty [last], so its fields come from its last line. *)
Theorem report_splits_line a line last :
  ~ has_char nl_char line -> ~ has_char nl_char last ->
  (a = EmptyString \/ exists a', a = (a' ++ String nl_char EmptyString)%string) ->
  report_splits (VStr (a ++ line ++ String nl_char last)) = Ok (PyStr.split_ws line).
Proof.
  intros Hl Hla Ha. unfold report_splits; cbn [as_str rbind].
  assert (Hs : PyStr.split_on nl_char (line ++ String nl_char last) = [line; last]).
  { rewrite split_on_app, !split_on_no_sep by assumption. reflexivity. }
  destruct Ha as [->|(a' & ->)].
  - cbn [append]. fold nl_char. rewrite Hs.
    exact (f_equal (fun r => rbind r (fun l => Ok (PyStr.split_ws l)))
             (py_list_getitem_minus2 EmptyString [] line last)).
  - rewrite <- append_assoc. cbn [append]. fold nl_char.
    rewrite split_on_app, Hs. rewrite py_list_getitem_minus2. reflexivity.
Qed.

(** X3.  [report.split('\n')[-2]] raises [IndexError] exactly when the
    report holds no newline; otherwise it returns a line. *)
Theorem report_splits_index_error s :
  match report_splits (VStr s) with
  | Ok _ => has_char nl_char s
  | Err e => e = IndexError "list index out of range" /\ ~ has_char nl_char s
  end.
Proof.
  unfold report_splits; cbn [as_str rbind].
  destruct (in_dec ascii_dec nl_char (list_ascii_of_string s)) as [Hin|Hn].
  - destruct (last_occurrence _ _ Hin) as (a & b & -> & Hb).
    fold nl_char. rewrite split_on_app, (split_on_no_sep _ b Hb).
    destruct (PyStr.split_on nl_char a) as [|p ps] eqn:Ha using rev_ind;
      [exfalso; exact (split_on_nonempty _ _ Ha)|].
    rewrite <- app_assoc. cbn [app]. rewrite py_list_getitem_minus2. exact Hin.
  - fold nl_char. rewrite (split_on_no_sep _ _ Hn). cbn. split; [reflexivity|exact Hn].
Qed.

(** X4.  [DATA_URL.split("/")[-1]], the name the data file is downloaded
    to, holds no ["/"], and the URL is that name preceded by a text that
    is empty or ends with ["/"]. *)
Theorem last_component_suffix s :
  ~ has_char "/"%char (last_component s) /\
  exists p, s = (p ++ last_component s)%string /\
    (p = EmptyString \/ exists p', p = (p' ++ "/")%string).
Proof.
  unfold last_component.
  destruct (in_dec ascii_dec "/"%char (list_ascii_of_string s)) as [Hin|Hn].
  - destruct (last_occurrence _ _ Hin) as (a & b & -> & Hb).
    rewrite split_on_app, (split_on_no_sep _ b Hb), last_last.
    split; [exact Hb|]. exists (a ++ "/")%string. split.
    + rewrite <- append_assoc. reflexivity.
    + right. exists a. reflexivity.
  - rewrite (split_on_no_sep _ _ Hn). cbn. split; [exact Hn|].
    exists EmptyString. split; [reflexivity|left; reflexivity].
Qed.

Lemma has_char_append c a b : has_char c (a ++ b) <-> has_char c a \/ has_char c b.
Proof.
  unfold has_char. induction a as [|x a IH]; cbn; [tauto|]. rewrite IH. tauto.
Qed.

Lemma non_space_cons c s :
  non_space (String c s) = if PyStr.is_space c then non_space s else String c (non_space s).
Proof. unfold non_space; cbn. destruct (PyStr.is_space c); reflexivity. Qed.

Lemma split_ws_aux_spec cur s :
  (forall c, has_char c cur -> PyStr.is_space c = false) ->
  Forall (fun f => f <> EmptyString /\ forall c, has_char c f -> PyStr.is_space c = false)
    (PyStr.split_ws_aux cur s) /\
  fold_right append EmptyString (PyStr.split_ws_aux cur s) = (cur ++ non_space s)%string.
Proof.
  revert cur. induction s as [|c s IH]; intros cur Hcur; cbn [PyStr.split_ws_aux].
  - unfold non_space; cbn. rewrite append_nil_r.
    destruct cur as [|x cur']; cbn; [split; [constructor|reflexivity]|].
    split; [constructor; [split; [discriminate|exact Hcur]|constructor]|].
    rewrite append_nil_r. reflexivity.
  - rewrite non_space_cons. destruct (PyStr.is_space c) eqn:Hc.
    + destruct (IH EmptyString) as [IHf IHc]; [unfold has_char; cbn; tauto|].
      destruct cur as [|x cur']; [exact (conj IHf IHc)|].
      split.
      * constructor; [split; [discriminate|exact Hcur]|exact IHf].
      * cbn [fold_right]. rewrite IHc. reflexivity.
    + destruct (IH (cur ++ String c EmptyString)%string) as [IHf IHc].
      { intros c' Hc'. apply has_char_append in Hc'. destruct Hc' as [Hc'|Hc'];
          [exact (Hcur c' Hc')|]. unfold has_char in Hc'; cbn in Hc'.
        destruct Hc' as [<-|[]]. exact Hc. }
      split; [exact IHf|]. rewrite IHc, <- append_assoc. reflexivity.
Qed.

(** X5.  [line.split()] returns non-empty fields without whitespace whose
    concatenation is the line with its whitespace removed. *)
Theorem split_ws_fields s :
  Forall (fun f => f <> EmptyString /\ forall c, has_char c f -> PyStr.is_space c = false)
    (PyStr.split_ws s) /\
  fold_right append EmptyString (PyStr.split_ws s) = non_space s.
Proof.
  apply (split_ws_aux_spec EmptyString s). unfold has_char; cbn. tauto.
Qed.


(** ** The sub-sampling and the split of cell 9 *)

(** The sub-sampling of cell 9, when it returns normally, keeps the input
    lists at [sample_size] distinct positions. *)
Lemma cell_subsample_select A E cfg sl ll w s' l' w1 :
  sample_contract A ->
  cell_subsample A E cfg sl ll w = (Ok (s', l'), w1) ->
  exists xs ys n x k idx,
    py_iter sl = Ok xs /\ py_iter ll = Ok ys /\ py_len sl = Ok n /\
    py_mul (SAMPLE_RATIO cfg) (VInt n) = Ok x /\ py_int x = Ok k /\ (0 <= k)%Z /\
    length idx = Z.to_nat k /\ NoDup idx /\
    Forall (fun j => j < length xs /\ j < length ys) idx /\
    s' = select xs idx /\ l' = select ys idx.
Proof.
  intros Hc. unfold cell_subsample; intros H; run_inv.
  repeat match goal with He : Ok _ = Ok _ |- _ => injection He; intros; subst; clear He end.
  match goal with Hi : Invoked _ _ (CRandomSample _ _) _ _ _ |- _ =>
    unfold Invoked, invoke, random_sample in Hi; cbn [py_iter] in Hi; rename Hi into Hs end.
  match type of Hs with context [if ?b then _ else _] => destruct b eqn:Hk end;
    [discriminate Hs|].
  match type of Hs with context [mt_sample A ?r ?n ?k] =>
    destruct (mt_sample A r n k) as [idx g] eqn:Hm end.
  injection Hs; intros; subst.
  apply orb_false_iff in Hk; destruct Hk as [Hk0 Hkn].
  apply Z.ltb_ge in Hk0; apply Z.ltb_ge in Hkn. rewrite length_zip2 in Hkn, Hm.
  match goal with Hm : mt_sample A ?r ?n ?kk = _ |- _ =>
    destruct (Hc r n kk) as (Hl & Hnd & Hf); [lia|];
    rewrite Hm in Hl, Hnd, Hf; cbn [fst] in Hl, Hnd, Hf end.
  assert (Hb : Forall (fun j => j < length a1 /\ j < length a2) idx).
  { eapply Forall_impl; [|exact Hf]. cbv beta. intros j Hj. lia. }
  unfold select in *; cbn [py_iter] in *.
  match goal with Hi : Ok _ = Ok _ |- _ => injection Hi; intros; subst end.
  assert (Hmap : map (fun j => nth j (zip2 a1 a2) VNone) idx =
                 map (fun j => VList [nth j a1 VNone; nth j a2 VNone]) idx).
  { apply map_ext_in. intros j Hj. rewrite Forall_forall in Hb.
    destruct (Hb j Hj). apply nth_zip2; assumption. }
  rewrite Hmap in *.
  unfold unzip_list in *.
  destruct idx as [|j0 idx']; cbn [map] in *.
  { match goal with Hu : Ok _ = Ok _ |- _ => injection Hu; intros; subst end.
    discriminate. }
  rewrite <- (map_cons (fun j => VList [nth j a1 VNone; nth j a2 VNone])) in *.
  rewrite transpose_pairs_map in *. cbn [rbind fst snd] in *.
  match goal with Hu : Ok _ = Ok _ |- _ => injection Hu; intros; subst end.
  cbn in H. injection H; intros; subst.
  do 6 eexists. repeat split; try eassumption; try lia. reflexivity. reflexivity.
Qed.

Lemma length_list_ascii_of_string s : length (list_ascii_of_string s) = String.length s.
Proof. induction s as [|c s IH]; cbn; [reflexivity|]. rewrite IH. reflexivity. Qed.

Lemma py_len_iter v n xs : py_len v = Ok n -> py_iter v = Ok xs -> n = Z.of_nat (length xs).
Proof.
  destruct v; cbn; intros H1 H2; try discriminate; injection H1 as <-; injection H2 as <-;
    [rewrite length_map, length_list_ascii_of_string|]; reflexivity.
Qed.

(** X6.  With [QUICK_RUN = False] ([SAMPLE_RATIO = 1]), and [random.sample]
    drawing distinct positions, the sub-sampling of cell 9 keeps every
    parsed sentence: when it returns normally, the new sentence and label
    lists are the parsed lists read at a reordering [idx] of all positions. *)
Theorem cell_subsample_full_reorders A E dp cd sl ll w s' l' w1 :
  sample_contract A ->
  cell_subsample A E (quick_run_update (base_config false dp cd)) sl ll w = (Ok (s', l'), w1) ->
  exists xs ys idx, py_iter sl = Ok xs /\ py_iter ll = Ok ys /\
    Permutation idx (seq 0 (length xs)) /\ s' = select xs idx /\ l' = select ys idx.
Proof.
  intros Hc H.
  destruct (cell_subsample_select A E _ _ _ _ _ _ _ Hc H)
    as (xs & ys & n & x & k & idx & Hx & Hy & Hn & Hm & Hk & Hk0 & Hl & Hnd & Hf & -> & ->).
  rewrite (py_len_iter _ _ _ Hn Hx) in Hm.
  cbn [quick_run_update base_config QUICK_RUN SAMPLE_RATIO py_mul] in Hm.
  injection Hm as <-. cbn [py_int] in Hk. injection Hk as <-.
  assert (Hl' : length idx = length xs)
    by (rewrite Hl; destruct (Z.of_nat (length xs)) eqn:Ez; cbn; lia).
  clear Hl; rename Hl' into Hl.
  exists xs, ys, idx. repeat split; try assumption.
  apply NoDup_Permutation_bis; [exact Hnd| rewrite length_seq; lia |].
  intros j Hj. rewrite Forall_forall in Hf. apply in_seq. destruct (Hf j Hj). lia.
Qed.

Lemma sample_size_eval quick dp cd n :
  (x <-? py_mul (SAMPLE_RATIO (quick_run_update (base_config quick dp cd))) (VInt (Z.of_nat n)) ;;
   py_int x) = Ok (sample_size_for quick n).
Proof.
  unfold sample_size_for. destruct quick; cbn [quick_run_update base_config QUICK_RUN SAMPLE_RATIO].
  - cbn [py_mul rbind py_int].
    replace (Qle_bool 0 ((1 # 10) * inject_Z (Z.of_nat n))) with true.
    + unfold Qfloor, Qmult, inject_Z; cbn. destruct (Z.of_nat n); reflexivity.
    + symmetry. apply Qle_bool_iff. unfold Qle, Qmult, inject_Z; cbn. destruct (Z.of_nat n) eqn:E; cbn; lia.
  - cbn. destruct (Z.of_nat n); reflexivity.
Qed.

(** X7.  [zip] stops at the shorter list, so when the label list is shorter
    than the sample size (for [QUICK_RUN = False], shorter than the
    sentence list), [random.sample] raises [ValueError] and the
    sub-sampling of cell 9 fails with it. *)
Theorem cell_subsample_short_labels A E quick dp cd xs ys w :
  (Z.of_nat (length ys) < sample_size_for quick (length xs))%Z ->
  fst (cell_subsample A E (quick_run_update (base_config quick dp cd)) (VList xs) (VList ys) w)
  = Err (ValueError "Sample larger than population or is negative").
Proof.
  intros Hlt. unfold cell_subsample, bind, liftR.
  cbn [invoke]. cbn [py_len rbind].
  rewrite (sample_size_eval quick dp cd (length xs)). cbn [py_iter rbind].
  cbn [invoke]. unfold random_sample. cbn [py_iter].
  rewrite length_zip2.
  replace (((sample_size_for quick (length xs) <? 0)%Z ||
            (Z.of_nat (Nat.min (length xs) (length ys)) <? sample_size_for quick (length xs))%Z))
    with true.
  - reflexivity.
  - symmetry. apply orb_true_iff. right. apply Z.ltb_lt.
    unfold sample_size_for in *. destruct quick; lia.
Qed.

(** X8.  When the sample size is 0 (an empty data file, or [QUICK_RUN]
    with fewer than 10 parsed sentences), [random.sample] returns an empty
    list, [zip( *[])] is empty and the unpacking into [sentence_list,
    labels_list] raises [ValueError]. *)
Theorem cell_subsample_empty_sample A E quick dp cd xs ys w :
  sample_contract A ->
  sample_size_for quick (length xs) = 0%Z ->
  fst (cell_subsample A E (quick_run_update (base_config quick dp cd)) (VList xs) (VList ys) w)
  = Err (ValueError "not enough values to unpack (expected 2, got 0)").
Proof.
  intros Hc H0. unfold cell_subsample, bind, liftR.
  cbn [invoke]. cbn [py_len rbind].
  rewrite (sample_size_eval quick dp cd (length xs)), H0. cbn [py_iter rbind].
  cbn [invoke]. unfold random_sample. cbn [py_iter].
  replace (((0 <? 0)%Z || (Z.of_nat (length (zip2 xs ys)) <? 0)%Z)) with false
    by (symmetry; apply orb_false_iff; split; apply Z.ltb_ge; lia).
  cbn [Z.to_nat].
  destruct (Hc (mt_seed A (RANDOM_SEED (quick_run_update (base_config quick dp cd))))
              (length (zip2 xs ys)) 0) as (Hl & _); [lia|].
  destruct (mt_sample A _ _ 0) as [idx g]. cbn [fst] in Hl.
  destruct idx; [|discriminate Hl]. reflexivity.
Qed.






Lemma combine_map_same {X Y Z} (f : X -> Y) (g : X -> Z) l :
  combine (map f l) (map g l) = map (fun x => (f x, g x)) l.
Proof. induction l as [|x l IH]; cbn; [reflexivity|now rewrite IH]. Qed.

Lemma map_nth_seq_combine (xs ys : list value) :
  length xs = length ys ->
  map (fun j => (nth j xs VNone, nth j ys VNone)) (seq 0 (length xs)) = combine xs ys.
Proof.
  revert ys. induction xs as [|x xs IH]; intros [|y ys] Hl; cbn in *; try discriminate; [reflexivity|].
  f_equal. rewrite <- seq_shift, map_map. apply IH. lia.
Qed.

(** X12.  When numpy's seeded permutation is a permutation, the split of
    cell 9 partitions the sampled (sentence, labels) pairs: each training
    and test sentence keeps its own labels, and the training pairs and the
    test pairs together are the sampled pairs, each exactly once. *)
Theorem data_preparation_split_partition A E quick w c s l sp w1 :
  (forall n, Permutation (rs_permutation A 100 n) (seq 0 n)) ->
  data_preparation A E quick w = (Ok (c, s, l, sp), w1) ->
  exists xs ys trs trl tes tel,
    py_iter s = Ok xs /\ py_iter l = Ok ys /\
    train_sentence_list sp = VList trs /\ train_labels_list sp = VList trl /\
    test_sentence_list sp = VList tes /\ test_labels_list sp = VList tel /\
    length trs = length trl /\ length tes = length tel /\
    Permutation (combine trs trl ++ combine tes tel) (combine xs ys).
Proof.
  intros Hperm H.
  destruct (data_preparation_ok _ _ _ _ _ _ H)
    as (dp & cd & s0 & l0 & xs & ys & Hr & Hx & Hy & Hl & Hlt & _).
  injection Hr as -> -> -> ->.
  destruct (tts_partition A 100 (3 # 10) (length xs) (Hperm _) ltac:(lia)) as (Hp & _).
  set (tr := tts_train A 100 (3 # 10) (length xs)) in *.
  set (te := tts_test A 100 (3 # 10) (length xs)) in *.
  unfold select. exists xs, ys. do 4 eexists.
  split; [exact Hx|]. split; [exact Hy|].
  do 4 (split; [reflexivity|]). rewrite !length_map.
  split; [reflexivity|]. split; [reflexivity|].
  rewrite !combine_map_same, <- map_app, <- (map_nth_seq_combine xs ys Hl).
  apply Permutation_map. rewrite <- (Permutation_app_comm te tr), Hp. apply Hperm.
Qed.


(** ** Paths, numbers and pairs *)

Lemma substring_last_slash (a : string) :
  a <> EmptyString -> substring (String.length a - 1) 1 a = "/" ->
  exists a', a = (a' ++ "/")%string.
Proof.
  induction a as [|c r IH]; intros Hne Hs; [congruence|].
  destruct r as [|c' r'].
  - cbn in Hs. injection Hs as ->. exists EmptyString. reflexivity.
  - cbn [String.length] in Hs. replace (S (S (String.length r')) - 1)
      with (S (String.length (String c' r') - 1)) in Hs by (cbn; lia).
    cbn [substring] in Hs. destruct (IH ltac:(discriminate) Hs) as (a' & Ha').
    exists (String c a'). rewrite Ha'. reflexivity.
Qed.

Lemma last_app_single {X} (l : list X) (x d : X) : last (l ++ [x]) d = x.
Proof. apply last_last. Qed.

Lemma last_component_slash p b :
  ~ has_char "/"%char b -> last_component (p ++ String "/" b) = b.
Proof.
  intros Hb. unfold last_component.
  rewrite split_on_app, (split_on_no_sep _ _ Hb). apply last_app_single.
Qed.

(** X13.  [os.path.join(DATA_PATH, file_name)] ends in [file_name]:
    when the file name has no ["/"], the last component of the joined
    path is the file name, whatever the directory. *)
Theorem path_join_last_component a b :
  ~ has_char "/"%char b -> last_component (path_join a b) = b.
Proof.
  intros Hb. unfold path_join. destruct a as [|c r] eqn:Ha.
  - unfold last_component. rewrite (split_on_no_sep _ _ Hb). reflexivity.
  - rewrite <- Ha. destruct (String.eqb (substring (String.length a - 1) 1 a) "/") eqn:Hs.
    + apply String.eqb_eq in Hs.
      destruct (substring_last_slash a ltac:(subst; discriminate) Hs) as (a' & ->).
      rewrite <- append_assoc. apply last_component_slash, Hb.
    + apply last_component_slash, Hb.
Qed.

Lemma digit_char_facts d : d < 10 ->
  PyStr.digit_of (digit_char d) = Some (Z.of_nat d) /\
  PyStr.is_space (digit_char d) = false /\
  PyStr.lower (digit_char d) = digit_char d /\
  Ascii.eqb (digit_char d) "_" = false /\
  Ascii.eqb (digit_char d) "." = false /\
  Ascii.eqb (digit_char d) "n" = false /\ Ascii.eqb (digit_char d) "i" = false /\
  (forall rest, PyStr.sign_of (digit_char d :: rest) = (false, digit_char d :: rest)).
Proof.
  intros Hd. do 10 (destruct d as [|d]; [repeat split; reflexivity|]). lia.
Qed.

Lemma digitpart_aux_digits acc ds rest :
  Forall (fun d => d < 10) ds ->
  PyStr.digitpart_aux acc (map digit_char ds ++ rest) =
  PyStr.digitpart_aux (acc ++ map Z.of_nat ds) rest.
Proof.
  intros Hds. revert acc. induction Hds as [|d ds Hd _ IH]; intros acc; cbn [map app].
  - rewrite app_nil_r. reflexivity.
  - cbn [PyStr.digitpart_aux]. destruct (digit_char_facts d Hd) as (-> & _).
    rewrite IH, <- app_assoc. reflexivity.
Qed.

Lemma strip_left_id l :
  match l with [] => True | c :: _ => PyStr.is_space c = false end ->
  PyStr.strip_left (string_of_list_ascii l) = string_of_list_ascii l.
Proof. destruct l as [|c l]; cbn; [reflexivity|]. intros ->. reflexivity. Qed.

Lemma strip_id l :
  Forall (fun c => PyStr.is_space c = false) l ->
  PyStr.strip (string_of_list_ascii l) = string_of_list_ascii l.
Proof.
  intros Hl. unfold PyStr.strip.
  rewrite (strip_left_id l) by (destruct l; [exact I| exact (Forall_inv Hl)]).
  rewrite list_ascii_of_string_of_list_ascii, (strip_left_id (rev l)).
  - rewrite list_ascii_of_string_of_list_ascii, rev_involutive. reflexivity.
  - apply Forall_rev in Hl. destruct (rev l); [exact I|]. exact (Forall_inv Hl).
Qed.

Lemma string_of_list_ascii_app l1 l2 :
  string_of_list_ascii (l1 ++ l2) = (string_of_list_ascii l1 ++ string_of_list_ascii l2)%string.
Proof. induction l1 as [|c l1 IH]; cbn; [reflexivity|]. rewrite IH. reflexivity. Qed.

Lemma py_float_of_string_decimal (ip fp : list nat) :
  Forall (fun d => d < 10) ip -> Forall (fun d => d < 10) fp -> ip ++ fp <> [] ->
  exists q, PyStr.py_float_of_string (digits_str ip ++ "." ++ digits_str fp) = Some (PFin q).
Proof.
  intros Hip Hfp Hne.
  set (body := map digit_char ip ++ "."%char :: map digit_char fp).
  assert (Hs : (digits_str ip ++ "." ++ digits_str fp)%string = string_of_list_ascii body).
  { unfold digits_str, body. rewrite string_of_list_ascii_app. reflexivity. }
  assert (Hall : Forall (fun c => PyStr.is_space c = false /\ PyStr.lower c = c /\
                                  Ascii.eqb c "n" = false /\ Ascii.eqb c "i" = false) body).
  { unfold body. apply Forall_app. split; [|constructor; [vm_compute; auto|]];
      apply Forall_map; eapply Forall_impl; try eassumption;
      intros d Hd; destruct (digit_char_facts d Hd) as (_ & ? & ? & _ & _ & ? & ? & _); auto. }
  assert (Hsign : PyStr.sign_of body = (false, body)).
  { unfold body. destruct ip as [|d ip]; [reflexivity|].
    inversion Hip as [|? ? Hd]; subst. destruct (digit_char_facts d Hd) as (_ & _ & _ & _ & _ & _ & _ & Hsg).
    cbn [map app]. apply Hsg. }
  assert (Hword : PyStr.lower_str (string_of_list_ascii body) = string_of_list_ascii body).
  { unfold PyStr.lower_str. rewrite list_ascii_of_string_of_list_ascii. f_equal.
    rewrite <- map_id. apply map_ext_in. intros c Hc.
    rewrite Forall_forall in Hall. apply Hall, Hc. }
  assert (Hnan : forall c0 w, c0 = "n"%char \/ c0 = "i"%char ->
            String.eqb (string_of_list_ascii body) (String c0 w) = false).
  { assert (Hhd : exists c b, body = c :: b) by (unfold body; destruct ip; cbn; eauto).
    destruct Hhd as (c & b & Hcb). pose proof Hall as Hc. rewrite Hcb in Hc.
    apply Forall_inv in Hc as (_ & _ & Hn & Hi).
    intros c0 w Hc0. rewrite Hcb. cbn [string_of_list_ascii String.eqb].
    destruct Hc0 as [-> | ->]; [rewrite Hn | rewrite Hi]; reflexivity. }
  assert (Hdp : PyStr.parse_decimal body =
     Some (inject_Z (PyStr.digits_value (map Z.of_nat ip ++ map Z.of_nat fp)) *
           PyStr.pow10_Q (- Z.of_nat (length (map Z.of_nat fp))))%Q).
  { unfold PyStr.parse_decimal, PyStr.digitpart, body.
    rewrite (digitpart_aux_digits [] ip _ Hip). cbn [app].
    replace (map digit_char fp) with (map digit_char fp ++ []) by apply app_nil_r.
    cbn [PyStr.digitpart_aux].
    change (PyStr.digit_of ".") with (@None Z). change ("." =? "_")%char with false.
    cbn beta iota zeta. rewrite (digitpart_aux_digits [] fp _ Hfp).
    cbn [app PyStr.digitpart_aux].
    destruct (map Z.of_nat ip ++ map Z.of_nat fp) eqn:Hz.
    - exfalso. apply Hne. rewrite <- map_app in Hz. destruct (ip ++ fp); [reflexivity|discriminate].
    - destruct (map Z.of_nat ip) eqn:Hi, (map Z.of_nat fp) eqn:Hf; try discriminate; reflexivity. }
  exists (inject_Z (PyStr.digits_value (map Z.of_nat (ip ++ fp))) *
          PyStr.pow10_Q (- Z.of_nat (length fp)))%Q.
  unfold PyStr.py_float_of_string. rewrite Hs.
  rewrite strip_id by (eapply Forall_impl; [|exact Hall]; cbn; tauto).
  rewrite list_ascii_of_string_of_list_ascii, Hsign. cbv zeta. rewrite Hword.
  rewrite !Hnan by auto. cbn [orb]. rewrite Hdp, map_app, length_map. reflexivity.
Qed.

(** X14.  Python's [float] on a decimal literal [I.F], with digit strings
    [I] and [F] not both empty (as the [0.86] fields of the report), does
    not raise [ValueError]: it returns a float. *)
Theorem py_float_decimal (ip fp : list nat) :
  Forall (fun d => d < 10) ip -> Forall (fun d => d < 10) fp -> ip ++ fp <> [] ->
  exists f, py_float (VStr (digits_str ip ++ "." ++ digits_str fp)) = Ok f.
Proof.
  intros Hip Hfp Hne.
  destruct (py_float_of_string_decimal ip fp Hip Hfp Hne) as (q & Hq).
  exists (PFin q). unfold py_float. rewrite Hq. reflexivity.
Qed.


Lemma transpose_zip2 xs ys :
  transpose_pairs (zip2 xs ys) =
  Ok (firstn (Nat.min (length xs) (length ys)) xs, firstn (Nat.min (length xs) (length ys)) ys).
Proof.
  revert ys. induction xs as [|x xs IH]; intros [|y ys]; cbn; try reflexivity.
  rewrite IH. reflexivity.
Qed.

(** X15.  [list(zip( *zip(xs, ys)))], the unzipping of cell 9, gives back
    the two lists cut to the shorter one, and is empty (so that unpacking
    it into two names fails) when either list is empty. *)
Theorem unzip_zip2 xs ys :
  unzip_list (zip2 xs ys) =
  match xs, ys with
  | [], _ | _, [] => Ok []
  | _, _ => let m := Nat.min (length xs) (length ys) in
            Ok [VList (firstn m xs); VList (firstn m ys)]
  end.
Proof.
  unfold unzip_list. destruct xs as [|x xs], ys as [|y ys]; try reflexivity.
  pose proof (transpose_zip2 (x :: xs) (y :: ys)) as Ht.
  cbn [zip2] in Ht |- *. rewrite Ht. reflexivity.
Qed.


Lemma invoke_env_none A E c w :
  env_call c = true -> env_raise E (trace w) c = None ->
  invoke A E c w = (Ok (lib_result E (trace w) c), record c (Ok (lib_result E (trace w) c)) w).
Proof. intros Hc Hr. unfold invoke. destruct c; try discriminate Hc; rewrite Hr; reflexivity. Qed.

Lemma bind_ok_intro {X Y} (m : M X) (f : X -> M Y) w x w' (y : Y) :
  m w = (Ok x, w') -> (exists w1, f x w' = (Ok y, w1)) -> exists w1, bind m f w = (Ok y, w1).
Proof. unfold bind. intros ->. exact (fun H => H). Qed.

Lemma bind_assoc_at {X Y Z} (m : M X) (g : X -> M Y) (f : Y -> M Z) w :
  bind (bind m g) f w = bind m (fun x => bind (g x) f) w.
Proof. unfold bind. destruct (m w) as [[x|e] w']; reflexivity. Qed.

(** One step of a run in which no library call raises. *)
Ltac run_step Hn :=
  lazymatch goal with
  | |- exists w1, bind (invoke _ _ ?c) ?f ?w = _ =>
      apply (bind_ok_intro _ f w _ _ _ (invoke_env_none _ _ c w eq_refl (Hn _ _)));
      cbv beta; cbn [lib_result data_call none_call];
      match goal with |- context [record c ?r w] =>
        let w' := fresh "w" in generalize (record c r w) as w'; intros w' end
  | |- exists w1, bind (liftR ?r) ?f ?w = _ =>
      apply (bind_ok_intro (liftR r) f w _ w _ eq_refl); cbv beta
  | |- exists w1, bind (ret ?x) ?f ?w = _ =>
      apply (bind_ok_intro (ret x) f w x w _ eq_refl); cbv beta
  | |- exists w1, bind (getitem _ _ _ _) _ _ = _ => cbn [getitem]
  | |- exists w1, bind (bind _ _) _ _ = _ => rewrite bind_assoc_at
  | |- exists w1, for_each [] _ _ = _ => eexists; reflexivity
  | |- exists w1, ret _ _ = _ => eexists; reflexivity
  | |- exists w1, for_each (_ :: _) _ _ = _ => cbn [for_each]
  end.

(** X16.  Cell 24 indexes [sample_text], the token lists and the predicted
    labels only at the positions of the two example sentences: when no
    library call raises, the cell completes. *)
Theorem cell_examples_completes A E cfg model ld w :
  (forall h c, env_raise E h c = None) ->
  exists w1, cell_examples A E cfg model ld w = (Ok tt, w1).
Proof.
  intros Hnone. unfold cell_examples. cbv zeta.
  change (seq 0 (length sample_text)) with [0; 1].
  repeat run_step Hnone.
Qed.


(** ** Witnesses of the properties above *)

Lemma not_has_char c s :
  existsb (Ascii.eqb c) (list_ascii_of_string s) = false -> ~ has_char c s.
Proof.
  intros H Hin. unfold has_char in Hin.
  assert (Hc : existsb (Ascii.eqb c) (list_ascii_of_string s) = true).
  { apply existsb_exists. exists c. split; [exact Hin|apply Ascii.eqb_refl]. }
  congruence.
Qed.

Lemma report_splits_line_witness :
  ~ has_char nl_char "   macro avg       0.86      0.81      0.83       300" /\
  ~ has_char nl_char "" /\
  report_splits (VStr ("header" ++ String nl_char EmptyString ++
                       "   macro avg       0.86      0.81      0.83       300" ++
                       String nl_char EmptyString))
  = Ok (PyStr.split_ws "   macro avg       0.86      0.81      0.83       300").
Proof.
  split; [apply not_has_char; reflexivity|]. split; [apply not_has_char; reflexivity|].
  rewrite append_assoc.
  apply report_splits_line.
  - apply not_has_char; reflexivity.
  - apply not_has_char; reflexivity.
  - right. exists "header". reflexivity.
Defined.

Lemma cell_subsample_full_reorders_witness :
  exists s' l' w1,
    cell_subsample Demo.algo0 Demo.env0 demo_config (VList Demo.conll_sentences)
      (VList Demo.conll_labels) Demo.world0 = (Ok (s', l'), w1) /\
  exists xs ys idx, py_iter (VList Demo.conll_sentences) = Ok xs /\
    py_iter (VList Demo.conll_labels) = Ok ys /\
    Permutation idx (seq 0 (length xs)) /\ s' = select xs idx /\ l' = select ys idx.
Proof.
  do 3 eexists; split; [vm_compute; reflexivity|].
  eapply (cell_subsample_full_reorders Demo.algo0 Demo.env0
           (VStr "/tmp/tmpk3d9") (VStr "/tmp/tmpk3d9")
           (VList Demo.conll_sentences) (VList Demo.conll_labels) Demo.world0).
  - exact demo_sample_contract.
  - vm_compute; reflexivity.
Defined.

Lemma cell_subsample_short_labels_witness :
  (Z.of_nat (length (firstn 3 Demo.conll_labels)) <
     sample_size_for false (length Demo.conll_sentences))%Z /\
  fst (cell_subsample Demo.algo0 Demo.env0 demo_config (VList Demo.conll_sentences)
         (VList (firstn 3 Demo.conll_labels)) Demo.world0)
  = Err (ValueError "Sample larger than population or is negative").
Proof.
  split; [vm_compute; reflexivity|].
  apply (cell_subsample_short_labels Demo.algo0 Demo.env0 false
           (VStr "/tmp/tmpk3d9") (VStr "/tmp/tmpk3d9")).
  vm_compute; reflexivity.
Defined.

Lemma cell_subsample_empty_sample_witness :
  sample_size_for true (length (firstn 5 Demo.conll_sentences)) = 0%Z /\
  fst (cell_subsample Demo.algo0 Demo.env0
         (quick_run_update (base_config true (VStr "/tmp/tmpk3d9") (VStr "/tmp/tmpk3d9")))
         (VList (firstn 5 Demo.conll_sentences)) (VList (firstn 5 Demo.conll_labels))
         Demo.world0)
  = Err (ValueError "not enough values to unpack (expected 2, got 0)").
Proof.
  split; [vm_compute; reflexivity|].
  apply (cell_subsample_empty_sample Demo.algo0 Demo.env0 true).
  - exact demo_sample_contract.
  - vm_compute; reflexivity.
Defined.



Lemma data_preparation_split_partition_witness :
  exists c s l sp w1,
    data_preparation Demo.algo0 Demo.env0 false Demo.world0 = (Ok (c, s, l, sp), w1) /\
  exists xs ys trs trl tes tel,
    py_iter s = Ok xs /\ py_iter l = Ok ys /\
    train_sentence_list sp = VList trs /\ train_labels_list sp = VList trl /\
    test_sentence_list sp = VList tes /\ test_labels_list sp = VList tel /\
    length trs = length trl /\ length tes = length tel /\
    Permutation (combine trs trl ++ combine tes tel) (combine xs ys).
Proof.
  do 5 eexists; split; [vm_compute; reflexivity|].
  eapply (data_preparation_split_partition Demo.algo0 Demo.env0 false Demo.world0).
  - intros n. apply demo_rotate_permutation.
  - vm_compute; reflexivity.
Defined.

Lemma path_join_last_component_witness :
  ~ has_char "/"%char "wikigold.conll.txt" /\
  last_component (path_join "/tmp/tmpk3d9" "wikigold.conll.txt") = "wikigold.conll.txt".
Proof.
  split; [apply not_has_char; reflexivity|].
  apply path_join_last_component. apply not_has_char; reflexivity.
Defined.

Lemma py_float_decimal_witness :
  Forall (fun d => d < 10) [0] /\ Forall (fun d => d < 10) [8; 6] /\ [0] ++ [8; 6] <> [] /\
  exists f, py_float (VStr (digits_str [0] ++ "." ++ digits_str [8; 6])) = Ok f.
Proof.
  assert (H0 : Forall (fun d => d < 10) [0]) by (repeat constructor; lia).
  assert (H1 : Forall (fun d => d < 10) [8; 6]) by (repeat constructor; lia).
  split; [exact H0|]. split; [exact H1|]. split; [discriminate|].
  apply (py_float_decimal [0] [8; 6] H0 H1). discriminate.
Defined.

Lemma cell_examples_completes_witness :
  (forall h c, env_raise Demo.env0 h c = None) /\
  exists w1, cell_examples Demo.algo0 Demo.env0 demo_config (VRes (CTokenClassifier "bert-base-cased" 6 VNone))
               (mkLoaders VNone VNone VNone VNone VNone VNone) Demo.world0 = (Ok tt, w1).
Proof.
  split; [intros; reflexivity|].
  apply cell_examples_completes. intros; reflexivity.
Defined.
